(** * Coffee-roaster simulator: result delivery with retry (src/App.jsx)

    A shallow embedding of the parts of [src/App.jsx] that run a simulation,
    build the result payload and deliver it: [parseParams], [sendWithRetry],
    the handlers [start] and [stop], the interval callback, the score, the
    effect that delivers the results and [finishAndSend].

    Conventions of the embedding.
    - JS numbers that the delivery code handles are integer valued (the
      attempt counter, [maxAttempts], delays in milliseconds, the rounded
      score); they are modelled in [Z], where [Math.pow(2, attempt) * 500]
      is exact for every [attempt] (in double arithmetic it is exact up to
      [attempt = 1015]).  The temperature is a fraction and is modelled in
      [Q]: every finite double is a rational; [NaN] and the infinities are
      left out.
    - A JS value that is either [null] or a string is an [option string].
    - The network and the timers are the environment.  The network is an
      oracle [net k req]: the way the k-th call of [axios.post] (counted from
      0) settles when it is given the request [req].  Every effect of the
      program is recorded, in program order, in a trace of [io_event]s. *)

From Stdlib Require Import ZArith List String Bool Lia.
From Stdlib Require Import QArith Qminmax Qround Qabs.
Import ListNotations.

Local Open Scope string_scope.
Local Open Scope Z_scope.
Local Open Scope list_scope.

(** ** JavaScript values *)

Module Js.

(** The values the program throws and catches: [null], or an error object
    with its [name], [message] and [cause] ([JsNull] when it has none). *)
Inductive jsval : Type :=
| JsNull
| JsError (name message : string) (cause : jsval).

(** [null] or a string. *)
Definition jsstr : Type := option string.

(** [new Error(message)]. *)
Definition new_Error (message : string) : jsval :=
  JsError "Error" message JsNull.

(** [s || d] for a string [s]: the empty string is falsy. *)
Definition str_or (s d : string) : string :=
  match s with
  | EmptyString => d
  | String _ _ => s
  end.

(** [v || d] for [v] null or a string. *)
Definition or_default (v : jsstr) (d : string) : string :=
  match v with
  | None => d
  | Some s => str_or s d
  end.

(** [!v] for [v] null or a string. *)
Definition falsy (v : jsstr) : bool :=
  match v with
  | None => true
  | Some EmptyString => true
  | Some (String _ _) => false
  end.

(** [err?.message]: undefined (here [None]) on [null]. *)
Definition opt_message (err : jsval) : jsstr :=
  match err with
  | JsNull => None
  | JsError _ message _ => Some message
  end.

(** [String(err)] as [Error.prototype.toString] and [String(null)] give it. *)
Definition to_String (err : jsval) : string :=
  match err with
  | JsNull => "null"
  | JsError name message _ =>
      match name, message with
      | EmptyString, _ => message
      | _, EmptyString => name
      | _, _ => (name ++ ": " ++ message)%string
      end
  end.

(** [s.startsWith(p)]. *)
Definition startsWith (s p : string) : bool := String.prefix p s.

End Js.
Import Js.

(** ** Session parameters (parseParams, lines 6-14) *)

(** [URLSearchParams]: the decoded name/value pairs of the query string, in
    the order they are written. *)
Definition URLSearchParams : Type := list (string * string).

(** [p.get(k)]: the first value given for [k], [null] when there is none. *)
Fixpoint get (p : URLSearchParams) (k : string) : jsstr :=
  match p with
  | [] => None
  | (k', v) :: rest => if String.eqb k' k then Some v else get rest k
  end.

Record session_params : Type := mk_session_params {
  session_id : jsstr;
  learner_id : jsstr;
  resource_id : jsstr;
  api_key : jsstr;
  callback_url : jsstr;
  mode : string
}.

Definition parseParams (p : URLSearchParams) : session_params :=
  {| session_id := get p "session_id";
     learner_id := get p "learner_id";
     resource_id := get p "resource_id";
     api_key := get p "api_key";
     callback_url := get p "callback_url";
     mode := or_default (get p "mode") "learning" |}.

(** ** Result payload (finishAndSend, lines 115-145) *)

Record summary_t : Type := mk_summary {
  score : Z;
  status : string;
  grade : string
}.

Record metric_t : Type := mk_metric {
  metric_code : string;
  metric_label : string;
  metric_value : Z;
  metric_unit : string
}.

Record event_t : Type := mk_event {
  ev_ts : string;
  ev_code : string;
  ev_label : string;
  ev_meta_temperature : option Z
}.

Record artifact_t : Type := mk_artifact {
  art_type : string;
  art_label : string;
  art_url : string
}.

Record diagnostics_t : Type := mk_diagnostics {
  simulator_version : string;
  engine : string;
  user_agent : string
}.

Record payload_t : Type := mk_payload {
  schema_version : string;
  p_session_id : jsstr;
  p_resource_id : string;
  p_learner_id : string;
  p_mode : string;
  started_at : string;
  ended_at : string;
  summary : summary_t;
  metrics : list metric_t;
  events : list event_t;
  competencies : list string;
  artifacts : list artifact_t;
  raw_logs : list string;
  diagnostics : diagnostics_t
}.

(** What [finishAndSend] reads from the component state and from the browser
    when it runs.  The score (lines 111-113), the rounded temperature, the
    two timestamps, the base64 data URI and the interpolated log line are
    computed by the JS runtime (floating point, [Date], [btoa],
    [JSON.stringify]); they enter the model already computed. *)
Record run_snapshot : Type := mk_snapshot {
  snap_score : Z;
  snap_progress : Z;
  snap_rounded_temperature : Z;
  snap_started_at : string;
  snap_ended_at : string;
  snap_events : list event_t;
  snap_competencies : list string;
  snap_artifact_url : string;
  snap_raw_log : string;
  snap_user_agent : string
}.

(** [score >= 85 ? 'A' : (score >= 70 ? 'B' : 'C')] (line 126). *)
Definition grade_of (score : Z) : string :=
  if score >=? 85 then "A" else if score >=? 70 then "B" else "C".

Definition build_payload (sessionParams : session_params) (s : run_snapshot)
  : payload_t :=
  {| schema_version := "1.0.0";
     p_session_id := session_id sessionParams;
     p_resource_id := or_default (resource_id sessionParams) "resource-unknown";
     p_learner_id := or_default (learner_id sessionParams) "learner-unknown";
     p_mode := str_or (mode sessionParams) "learning";
     started_at := snap_started_at s;
     ended_at := snap_ended_at s;
     summary := {| score := snap_score s;
                   status := "completed";
                   grade := grade_of (snap_score s) |};
     metrics :=
       [ mk_metric "TIME_TOTAL" "Temps total" (snap_progress s) "s";
         mk_metric "PEAK_TEMP" "Température finale (C)"
                   (snap_rounded_temperature s) "°C" ];
     events := snap_events s;
     competencies := snap_competencies s;
     artifacts :=
       [ mk_artifact "file" "Session log (inline)" (snap_artifact_url s) ];
     raw_logs := [ snap_raw_log s ];
     diagnostics := {| simulator_version := "1.0.0";
                       engine := "react-vite";
                       user_agent := snap_user_agent s |} |}.

(** ** Effects: requests, timers, messages *)

Inductive http_method : Type := POST | GET.

(** One call of [axios.post(url, data, config)]. *)
Record request : Type := mk_request {
  req_method : http_method;
  req_url : string;
  req_data : payload_t;
  req_headers : list (string * jsstr);
  req_timeout : Z
}.

(** The response body, [res.data]: the program reads its [message] only
    ([None] when the body has none, or is not an object). *)
Record ack_body : Type := mk_ack { ack_message : jsstr }.

(** The response object of axios. *)
Record response : Type := mk_response {
  res_status : Z;
  res_data : ack_body
}.

(** How a call of [axios.post] settles: resolved with a response, or
    rejected (timeout, connection error, non-2xx status). *)
Inductive settled : Type :=
| Resolved (res : response)
| Rejected (err : jsval).

Definition network : Type := nat -> request -> settled.

Inductive io_event : Type :=
| EvPost (req : request)
| EvWait (ms : Z)
| EvSetMessage (msg : string)
| EvConsoleError (err : jsval).

(** How a computation ends.  [OutOfFuel] is the model's own: the [while]
    loop is run with a bound on its iterations. *)
Inductive outcome (A : Type) : Type :=
| Return (a : A)
| Throw (err : jsval)
| OutOfFuel.
Arguments Return {A} a.
Arguments Throw {A} err.
Arguments OutOfFuel {A}.

(** A computation: from the network and the number of requests made so far
    to its outcome, the new number of requests and the events it performed. *)
Definition M (A : Type) : Type :=
  network -> nat -> outcome A * nat * list io_event.

Definition ret {A} (a : A) : M A := fun _ k => (Return a, k, []).

Definition throw {A} (err : jsval) : M A := fun _ k => (Throw err, k, []).

Definition out_of_fuel {A} : M A := fun _ k => (OutOfFuel, k, []).

Definition bind {A B} (m : M A) (f : A -> M B) : M B :=
  fun net k =>
    match m net k with
    | (Return a, k', t) =>
        match f a net k' with
        | (r, k'', t') => (r, k'', t ++ t')
        end
    | (Throw err, k', t) => (Throw err, k', t)
    | (OutOfFuel, k', t) => (OutOfFuel, k', t)
    end.

(** [try { body } catch (err) { handler }]. *)
Definition try_catch {A} (body : M A) (handler : jsval -> M A) : M A :=
  fun net k =>
    match body net k with
    | (Throw err, k', t) =>
        match handler err net k' with
        | (r, k'', t') => (r, k'', t ++ t')
        end
    | other => other
    end.

Declare Scope js_scope.
Delimit Scope js_scope with js.
Notation "x <- m ;; k" := (bind m (fun x => k))
  (at level 61, m at next level, right associativity) : js_scope.
Notation "m ;;; k" := (bind m (fun _ => k))
  (at level 61, right associativity) : js_scope.
Local Open Scope js_scope.

(** [await axios.post(...)]: one request; a rejection is thrown. *)
Definition axios_post (req : request) : M response :=
  fun net k =>
    match net k req with
    | Resolved res => (Return res, S k, [EvPost req])
    | Rejected err => (Throw err, S k, [EvPost req])
    end.

(** [await new Promise(r => setTimeout(r, delay))]. *)
Definition wait (delay : Z) : M unit := fun _ k => (Return tt, k, [EvWait delay]).

Definition setMessage (msg : string) : M unit :=
  fun _ k => (Return tt, k, [EvSetMessage msg]).

Definition console_error (err : jsval) : M unit :=
  fun _ k => (Return tt, k, [EvConsoleError err]).

(** ** sendWithRetry (lines 18-39) *)

(** The arguments of [axios.post] at lines 23-29. *)
Definition post_request (url : string) (payload : payload_t) (apiKey : jsstr)
  : request :=
  {| req_method := POST;
     req_url := url;
     req_data := payload;
     req_headers := [ ("Content-Type", Some "application/json");
                      ("x-api-key", apiKey) ];
     req_timeout := 10000 |}.

(** The [while] loop of lines 21-38, entered with the current values of
    [attempt] and [lastErr]; [fuel] bounds the number of times the loop test
    is evaluated. *)
Fixpoint retry_loop (url : string) (payload : payload_t) (apiKey : jsstr)
    (maxAttempts : Z) (fuel : nat) (attempt : Z) (lastErr : jsval)
  : M ack_body :=
  match fuel with
  | O => out_of_fuel
  | S fuel' =>
      if attempt <? maxAttempts then
        try_catch
          (res <- axios_post (post_request url payload apiKey) ;;
           ret (res_data res))
          (fun err =>
             let lastErr := err in
             let attempt := attempt + 1 in
             let delay := 2 ^ attempt * 500 in
             wait delay ;;;
             retry_loop url payload apiKey maxAttempts fuel' attempt lastErr)
      else throw lastErr
  end.

(** The loop test is evaluated at most [maxAttempts + 1] times. *)
Definition loop_fuel (maxAttempts : Z) : nat := S (Z.to_nat maxAttempts).

Definition sendWithRetry (url : string) (payload : payload_t) (apiKey : jsstr)
    (maxAttempts : Z) : M ack_body :=
  let attempt := 0 in
  let lastErr := JsNull in
  retry_loop url payload apiKey maxAttempts (loop_fuel maxAttempts)
             attempt lastErr.

(** [maxAttempts = 3] when the argument is omitted (line 18). *)
Definition sendWithRetry_default (url : string) (payload : payload_t)
    (apiKey : jsstr) : M ack_body :=
  sendWithRetry url payload apiKey 3.

(** ** finishAndSend (lines 106-158) *)

(** The error of line 150. *)
Definition https_error : jsval := new_Error "callback_url doit être en HTTPS".

(** [sessionParams.callback_url.startsWith] when [callback_url] is [null]:
    the engine's TypeError (the wording of the message is V8's). *)
Definition null_TypeError : jsval :=
  JsError "TypeError" "Cannot read properties of null (reading 'startsWith')"
          JsNull.

(** The body of the [try] block, lines 149-153. *)
Definition finishAndSend_try (sessionParams : session_params)
    (payload : payload_t) : M unit :=
  match callback_url sessionParams with
  | None => throw null_TypeError
  | Some url =>
      if negb (startsWith url "https://") then throw https_error
      else
        res <- sendWithRetry url payload (api_key sessionParams) 3 ;;
        setMessage ("Résultats envoyés: " ++ or_default (ack_message res) "OK")
  end.

(** The body of the [catch] block, lines 155-156. *)
Definition finishAndSend_catch (err : jsval) : M unit :=
  console_error err ;;;
  setMessage ("Échec envoi résultats: "
              ++ or_default (opt_message err) (to_String err)).

Definition finishAndSend (sessionParams : session_params) (s : run_snapshot)
  : M unit :=
  let payload := build_payload sessionParams s in
  setMessage "Envoi des résultats..." ;;;
  try_catch (finishAndSend_try sessionParams payload) finishAndSend_catch.

(** ** The simulation tick (lines 66-81) *)

Local Open Scope Q_scope.

Record sim_state : Type := mk_sim_state {
  running : bool;
  progress : Z;
  targetTime : Q;
  temperature : Q;
  sim_events : list event_t
}.

(** [Math.round]. *)
Definition Math_round (x : Q) : Z := Qfloor (x + (1 # 2)).

(** The updater given to [setTemperature] at line 70; [rnd] is the value of
    [Math.random()]. *)
Definition update_temperature (rnd : Q) (t : Q) : Q :=
  Qmax 100 (Qmin 250 (t + (rnd - (1 # 2)) * 4)).

(** One run of the interval callback.  [closure_targetTime] and
    [closure_temperature] are the [targetTime] and the [temperature] the
    callback captured when the effect installed it (the effect depends on
    [running] only, so the callback keeps them for the whole run, whatever
    the fields of the state become); [rnd_drift] and [rnd_event] are the two
    values of [Math.random()] and [now] the value of [nowISO()]. *)
Definition tick (closure_targetTime closure_temperature rnd_drift rnd_event : Q)
    (now : string) (s : sim_state) : sim_state :=
  let np := (progress s + 1)%Z in
  {| running := if Qle_bool closure_targetTime (inject_Z np) then false
                else running s;
     progress := np;
     targetTime := targetTime s;
     temperature := update_temperature rnd_drift (temperature s);
     sim_events :=
       if negb (Qle_bool (1 # 10) rnd_event)
       then sim_events s
              ++ [ mk_event now "ACTION.PRESS" "Ajustement"
                            (Some (Math_round closure_temperature)) ]
       else sim_events s |}.

Local Close Scope Q_scope.

(** ** Reading a run *)

Definition result_of {A} (x : outcome A * nat * list io_event) : outcome A :=
  fst (fst x).

Definition requests_made {A} (x : outcome A * nat * list io_event) : nat :=
  snd (fst x).

Definition trace_of {A} (x : outcome A * nat * list io_event)
  : list io_event := snd x.

(** A computation run from the start: no request made yet. *)
Definition run {A} (m : M A) (net : network)
  : outcome A * nat * list io_event := m net O.

(** The requests of a trace, in order. *)
Fixpoint posts (t : list io_event) : list request :=
  match t with
  | [] => []
  | EvPost r :: t' => r :: posts t'
  | _ :: t' => posts t'
  end.

(** The durations of the waits of a trace, in order. *)
Fixpoint waits (t : list io_event) : list Z :=
  match t with
  | [] => []
  | EvWait ms :: t' => ms :: waits t'
  | _ :: t' => waits t'
  end.

(** The events of [m] failed attempts made from the counter value [attempt]:
    each request is followed by its backoff wait. *)
Definition backoff_trace (req : request) (attempt : Z) (m : nat)
  : list io_event :=
  flat_map (fun j => [EvPost req; EvWait (2 ^ (attempt + Z.of_nat j) * 500)])
           (seq 1 m).

(** ** The spec's error kinds

    The spec names two kinds of error.  An error object is of a kind when
    its [name] is the kind's, and it wraps a cause when its [cause] is that
    value. *)

Definition is_ConfigurationError (v : jsval) : Prop :=
  exists message cause, v = JsError "ConfigurationError" message cause.

Definition is_DeliveryError (v : jsval) : Prop :=
  exists message cause, v = JsError "DeliveryError" message cause.

Definition is_DeliveryError_wrapping (cause v : jsval) : Prop :=
  exists message, v = JsError "DeliveryError" message cause.

(** The waits the spec promises for [n] failed attempts:
    [2^1*500, ..., 2^(n-1)*500]. *)
Definition spec_waits (n : Z) : list Z :=
  map (fun j => 2 ^ Z.of_nat j * 500) (seq 1 (Z.to_nat n - 1)).

(** ** Concrete data for the examples *)

Definition example_snapshot : run_snapshot :=
  {| snap_score := 84;
     snap_progress := 300;
     snap_rounded_temperature := 201;
     snap_started_at := "2024-01-01T10:00:00.000Z";
     snap_ended_at := "2024-01-01T10:05:00.000Z";
     snap_events := [];
     snap_competencies := [];
     snap_artifact_url := "data:application/json;base64,e30=";
     snap_raw_log := "Simulation générée localement. progress=300";
     snap_user_agent := "Mozilla/5.0" |}.

Definition example_params (url : string) : session_params :=
  parseParams [ ("session_id", "s-1"); ("api_key", "key123");
                ("callback_url", url) ].

Definition example_payload : payload_t :=
  build_payload (example_params "https://cb.example/x") example_snapshot.

Definition timeout_error : jsval :=
  JsError "AxiosError" "timeout of 10000ms exceeded" JsNull.

Definition refused_error : jsval :=
  JsError "AxiosError" "Network Error" JsNull.

(** A network on which every request is refused. *)
Definition net_down : network := fun _ _ => Rejected refused_error.

(** A network on which every request is accepted. *)
Definition net_up : network :=
  fun _ _ => Resolved (mk_response 200 (mk_ack (Some "stored"))).

(** Two timeouts, then the endpoint answers. *)
Definition net_third_time : network :=
  fun k _ =>
    match k with
    | 0%nat | 1%nat => Rejected timeout_error
    | _ => Resolved (mk_response 200 (mk_ack (Some "stored")))
    end.

(** ** The score (finishAndSend, lines 111-113) *)

Local Open Scope Q_scope.

(** [Math.max(0, 100 - Math.abs(targetTime - progress) / targetTime * 100)].
    When [targetTime] is 0 JS divides by zero: for a progress that is not 0
    the quotient is [Infinity] and the maximum is 0, which is the first
    branch.  ([finishAndSend] runs with a progress above 0 only, line 162;
    the [NaN] of 0/0 and the target [-0] are left out.) *)
Definition timeScore (targetTime : Q) (progress : Z) : Q :=
  if Qeq_bool targetTime 0 then 0
  else Qmax 0 (100 - Qabs (targetTime - inject_Z progress) / targetTime * 100).

(** [Math.max(0, 100 - Math.abs(200 - temperature))]. *)
Definition tempStability (temperature : Q) : Q :=
  Qmax 0 (100 - Qabs (200 - temperature)).

(** [Math.round(Math.min(100, timeScore*0.7 + tempStability*0.3))], in
    exact arithmetic.  The code computes in doubles: where the exact value
    is within rounding error of a half-integer the rounded score can differ
    by one (target 300, progress 276, temperature 167: 84.5 here, just below
    it in doubles).  The results below are bounds that hold for both. *)
Definition score_of (targetTime : Q) (progress : Z) (temperature : Q) : Z :=
  Math_round (Qmin 100 (timeScore targetTime progress * (7 # 10)
                        + tempStability temperature * (3 # 10))).

Local Close Scope Q_scope.

(** ** The component state and its handlers (lines 41-104, 160-167) *)

(** The state of [App]: the session parameters, the status message, the
    simulation state, and the two lists that only [start] writes.  The
    interval handle and [startedAtRef] belong to the runtime. *)
Record app_state : Type := mk_app_state {
  app_sessionParams : session_params;
  app_message : string;
  app_sim : sim_state;
  app_metrics : list metric_t;
  app_competencies : list string
}.

(** The state at mount: the [useState] initial values of lines 43-53. *)
Definition initial_state (p : URLSearchParams) : app_state :=
  {| app_sessionParams := parseParams p;
     app_message := "";
     app_sim := {| running := false;
                   progress := 0;
                   targetTime := inject_Z 300;
                   temperature := inject_Z 200;
                   sim_events := [] |};
     app_metrics := [];
     app_competencies := [] |}.

Definition missing_params_message : string :=
  "Paramètres manquants — assurez-vous que session_id, api_key et callback_url sont fournis dans l’URL.".

(** [setTargetTime(Number(e.target.value))] (line 190); [v] is the number
    the field holds. *)
Definition setTargetTime (v : Q) (s : sim_state) : sim_state :=
  {| running := running s;
     progress := progress s;
     targetTime := v;
     temperature := temperature s;
     sim_events := sim_events s |}.

(** [setTemperature(Number(e.target.value))] (line 193). *)
Definition setTemperature (v : Q) (s : sim_state) : sim_state :=
  {| running := running s;
     progress := progress s;
     targetTime := targetTime s;
     temperature := v;
     sim_events := sim_events s |}.

(** The mounted page after the target field has been set to [v]. *)
Definition setup_target (v : Q) (p : URLSearchParams) : app_state :=
  {| app_sessionParams := app_sessionParams (initial_state p);
     app_message := app_message (initial_state p);
     app_sim := setTargetTime v (app_sim (initial_state p));
     app_metrics := app_metrics (initial_state p);
     app_competencies := app_competencies (initial_state p) |}.

(** [start] (lines 88-99). *)
Definition start (a : app_state) : app_state :=
  let sessionParams := app_sessionParams a in
  if falsy (session_id sessionParams) || falsy (api_key sessionParams)
     || falsy (callback_url sessionParams)
  then {| app_sessionParams := app_sessionParams a;
          app_message := missing_params_message;
          app_sim := app_sim a;
          app_metrics := app_metrics a;
          app_competencies := app_competencies a |}
  else {| app_sessionParams := app_sessionParams a;
          app_message := "Simulation démarrée";
          app_sim := {| running := true;
                        progress := 0;
                        targetTime := targetTime (app_sim a);
                        temperature := temperature (app_sim a);
                        sim_events := [] |};
          app_metrics := [];
          app_competencies := [] |}.

(** The first statements of the effect of lines 62-86 when [running] has
    become true: the ACTION.START event; [now] is the value of [nowISO()].
    The interval it installs is [run_ticks] below. *)
Definition effect_started (now : string) (a : app_state) : app_state :=
  {| app_sessionParams := app_sessionParams a;
     app_message := app_message a;
     app_sim := {| running := running (app_sim a);
                   progress := progress (app_sim a);
                   targetTime := targetTime (app_sim a);
                   temperature := temperature (app_sim a);
                   sim_events :=
                     sim_events (app_sim a)
                       ++ [ mk_event now "ACTION.START"
                                     "Démarrage de la torréfaction" None ] |};
     app_metrics := app_metrics a;
     app_competencies := app_competencies a |}.

(** [stop] (lines 101-104). *)
Definition stop (now : string) (a : app_state) : app_state :=
  {| app_sessionParams := app_sessionParams a;
     app_message := app_message a;
     app_sim := {| running := false;
                   progress := progress (app_sim a);
                   targetTime := targetTime (app_sim a);
                   temperature := temperature (app_sim a);
                   sim_events :=
                     sim_events (app_sim a)
                       ++ [ mk_event now "ACTION.STOP" "Arrêt manuel" None ] |};
     app_metrics := app_metrics a;
     app_competencies := app_competencies a |}.

(** What happens in one second of a run: the values the user has typed in
    the two fields since the last tick, if any (the last one counts), and
    what the interval callback then reads from the environment, the two
    values of [Math.random()] and the value of [nowISO()]. *)
Record tick_input : Type := mk_tick_input {
  ti_drift : Q;
  ti_event : Q;
  ti_now : string;
  ti_edit_targetTime : option Q;
  ti_edit_temperature : option Q
}.

(** The edits of one second. *)
Definition apply_edits (i : tick_input) (s : sim_state) : sim_state :=
  let s1 := match ti_edit_targetTime i with
            | Some v => setTargetTime v s
            | None => s
            end in
  match ti_edit_temperature i with
  | Some v => setTemperature v s1
  | None => s1
  end.

(** The interval of lines 66-81: one [tick] per second for as long as
    [running] is true (the cleanup of line 84 clears the interval once
    [running] has changed).  The callback is the one the effect installed
    when the run began: it keeps the [targetTime] and the [temperature] it
    captured then. *)
Fixpoint run_ticks (closure_targetTime closure_temperature : Q)
    (inputs : list tick_input) (s : sim_state) : sim_state :=
  match inputs with
  | [] => s
  | i :: rest =>
      if running s
      then run_ticks closure_targetTime closure_temperature rest
             (tick closure_targetTime closure_temperature
                   (ti_drift i) (ti_event i) (ti_now i) (apply_edits i s))
      else s
  end.

(** The component state once the interval has run on [inputs]: the
    callback captured the target and the temperature of the render in
    which the effect ran. *)
Definition after_ticks (inputs : list tick_input) (a : app_state)
  : app_state :=
  {| app_sessionParams := app_sessionParams a;
     app_message := app_message a;
     app_sim := run_ticks (targetTime (app_sim a)) (temperature (app_sim a))
                          inputs (app_sim a);
     app_metrics := app_metrics a;
     app_competencies := app_competencies a |}.

(** What [finishAndSend] takes from the browser: the two timestamps as
    [toISOString] gives them, the data URI of line 135, the log line of
    line 138 and [navigator.userAgent]. *)
Record browser_env : Type := mk_browser_env {
  env_started_at : string;
  env_ended_at : string;
  env_artifact_url : string;
  env_raw_log : string;
  env_user_agent : string
}.

(** The values [finishAndSend] computes from the state (lines 107-113 and
    129-143). *)
Definition snapshot_of (env : browser_env) (a : app_state) : run_snapshot :=
  {| snap_score := score_of (targetTime (app_sim a)) (progress (app_sim a))
                            (temperature (app_sim a));
     snap_progress := progress (app_sim a);
     snap_rounded_temperature := Math_round (temperature (app_sim a));
     snap_started_at := env_started_at env;
     snap_ended_at := env_ended_at env;
     snap_events := sim_events (app_sim a);
     snap_competencies := app_competencies a;
     snap_artifact_url := env_artifact_url env;
     snap_raw_log := env_raw_log env;
     snap_user_agent := env_user_agent env |}.

(** The effect of lines 160-167, run when [running] has changed. *)
Definition finish_effect (env : browser_env) (a : app_state) : M unit :=
  if negb (running (app_sim a)) && (progress (app_sim a) >? 0)
  then finishAndSend (app_sessionParams a) (snapshot_of env a)
  else ret tt.

(** The time spent in the waits of a trace, in milliseconds. *)
Definition total_wait (t : list io_event) : Z :=
  fold_right Z.add 0 (waits t).

(** ** The retry loop, one iteration at a time *)

Lemma backoff_trace_shift (g : Z -> list io_event) (a : Z) (m s : nat) :
  flat_map (fun j => g (a + Z.of_nat j)) (seq (S s) m)
  = flat_map (fun j => g (a + 1 + Z.of_nat j)) (seq s m).
Proof.
  revert s. induction m as [|m IH]; intros s; cbn [seq flat_map].
  - reflexivity.
  - rewrite IH. f_equal. f_equal. lia.
Qed.

Lemma backoff_trace_succ (req : request) (attempt : Z) (m : nat) :
  backoff_trace req attempt (S m)
  = EvPost req :: EvWait (2 ^ (attempt + 1) * 500)
      :: backoff_trace req (attempt + 1) m.
Proof.
  unfold backoff_trace. cbn [seq flat_map app].
  rewrite (backoff_trace_shift
             (fun z => [EvPost req; EvWait (2 ^ z * 500)]) attempt m 1).
  reflexivity.
Qed.

Lemma posts_backoff_trace (req : request) (attempt : Z) (m : nat) :
  posts (backoff_trace req attempt m) = repeat req m.
Proof.
  revert attempt. induction m as [|m IH]; intros attempt.
  - reflexivity.
  - rewrite backoff_trace_succ. cbn [posts repeat]. now rewrite IH.
Qed.

Lemma waits_backoff_trace (req : request) (attempt : Z) (m : nat) :
  waits (backoff_trace req attempt m)
  = map (fun j => 2 ^ (attempt + Z.of_nat j) * 500) (seq 1 m).
Proof.
  revert attempt. induction m as [|m IH]; intros attempt.
  - reflexivity.
  - rewrite backoff_trace_succ. cbn [waits seq map]. rewrite IH.
    f_equal.
    rewrite <- (seq_shift m 1), map_map. apply map_ext.
    intros j. f_equal. f_equal. lia.
Qed.

Section RetryLoop.

Variables (url : string) (payload : payload_t) (apiKey : jsstr).
Variable maxAttempts : Z.
Variable net : network.

Let req : request := post_request url payload apiKey.
Let loop := retry_loop url payload apiKey maxAttempts.

Lemma retry_loop_exit fuel attempt lastErr k :
  maxAttempts <= attempt ->
  loop (S fuel) attempt lastErr net k = (Throw lastErr, k, []).
Proof.
  intros H. unfold loop. cbn [retry_loop].
  destruct (Z.ltb_spec attempt maxAttempts); [lia | reflexivity].
Qed.

Lemma retry_loop_resolved fuel attempt lastErr k res :
  attempt < maxAttempts ->
  net k req = Resolved res ->
  loop (S fuel) attempt lastErr net k
  = (Return (res_data res), S k, [EvPost req]).
Proof.
  intros H Hnet. unfold loop. cbn [retry_loop].
  destruct (Z.ltb_spec attempt maxAttempts); [| lia].
  unfold try_catch, bind, axios_post, ret. fold req. now rewrite Hnet.
Qed.

Lemma retry_loop_rejected fuel attempt lastErr k err :
  attempt < maxAttempts ->
  net k req = Rejected err ->
  loop (S fuel) attempt lastErr net k
  = (result_of (loop fuel (attempt + 1) err net (S k)),
     requests_made (loop fuel (attempt + 1) err net (S k)),
     EvPost req :: EvWait (2 ^ (attempt + 1) * 500)
       :: trace_of (loop fuel (attempt + 1) err net (S k))).
Proof.
  intros H Hnet. unfold loop. cbn [retry_loop].
  destruct (Z.ltb_spec attempt maxAttempts); [| lia].
  unfold try_catch, bind, axios_post, ret, wait. fold req. rewrite Hnet.
  cbn zeta.
  destruct (retry_loop url payload apiKey maxAttempts fuel (attempt + 1) err
              net (S k)) as [[r k'] t].
  reflexivity.
Qed.

(** When the next [m] requests are rejected and [m] attempts remain, the
    loop makes them all, waits after each, and throws the last rejection. *)
Lemma retry_loop_all_rejected (m : nat) :
  forall fuel attempt lastErr k,
    (m < fuel)%nat ->
    Z.of_nat m = Z.max 0 (maxAttempts - attempt) ->
    (forall j, (j < m)%nat -> exists e, net (k + j)%nat req = Rejected e) ->
    exists v,
      loop fuel attempt lastErr net k
      = (Throw v, (k + m)%nat, backoff_trace req attempt m)
      /\ match m with
         | O => v = lastErr
         | S m' => net (k + m')%nat req = Rejected v
         end.
Proof.
  induction m as [|m IH]; intros fuel attempt lastErr k Hfuel Hm Hnet.
  - destruct fuel as [|fuel]; [lia |].
    exists lastErr. split; [| reflexivity].
    rewrite retry_loop_exit by lia. now rewrite Nat.add_0_r.
  - destruct fuel as [|fuel]; [lia |].
    destruct (Hnet O ltac:(lia)) as [e He]. rewrite Nat.add_0_r in He.
    destruct (IH fuel (attempt + 1) e (S k)) as [v [Hrun Hlast]];
      [lia | lia | |].
    { intros j Hj. destruct (Hnet (S j) ltac:(lia)) as [e' He'].
      exists e'. now rewrite <- He', Nat.add_succ_r. }
    exists v. split.
    + rewrite (retry_loop_rejected fuel attempt lastErr k e) by (lia || exact He).
      rewrite Hrun. unfold result_of, requests_made, trace_of. cbn [fst snd].
      rewrite backoff_trace_succ. f_equal. f_equal. lia.
    + destruct m as [|m'].
      * subst v. now rewrite Nat.add_0_r.
      * now rewrite Nat.add_succ_r.
Qed.

(** A throwing run is a run in which every remaining attempt was rejected. *)
Lemma retry_loop_throw_inv (fuel : nat) :
  forall attempt lastErr k v,
    result_of (loop fuel attempt lastErr net k) = Throw v ->
    exists m,
      (m < fuel)%nat
      /\ Z.of_nat m = Z.max 0 (maxAttempts - attempt)
      /\ (forall j, (j < m)%nat -> exists e, net (k + j)%nat req = Rejected e).
Proof.
  induction fuel as [|fuel IH]; intros attempt lastErr k v Hthrow.
  - discriminate Hthrow.
  - destruct (Z.lt_ge_cases attempt maxAttempts) as [Hlt | Hge].
    + destruct (net k req) as [res | e] eqn:Hnet.
      * rewrite (retry_loop_resolved fuel attempt lastErr k res) in Hthrow
          by assumption.
        discriminate Hthrow.
      * rewrite (retry_loop_rejected fuel attempt lastErr k e) in Hthrow
          by assumption.
        unfold result_of at 1 in Hthrow. cbn [fst] in Hthrow.
        destruct (IH _ _ _ _ Hthrow) as [m [Hm [Hrem Hrej]]].
        exists (S m). repeat split; [lia | lia |].
        intros [|j] Hj.
        -- exists e. now rewrite Nat.add_0_r.
        -- destruct (Hrej j ltac:(lia)) as [e' He'].
           exists e'. now rewrite Nat.add_succ_r.
    + exists O. repeat split; [lia | lia |]. intros j Hj. lia.
Qed.

(** The loop ends whenever its fuel exceeds the attempts that remain. *)
Lemma retry_loop_total (fuel : nat) :
  forall attempt lastErr k,
    (Z.to_nat (maxAttempts - attempt) < fuel)%nat ->
    result_of (loop fuel attempt lastErr net k) <> OutOfFuel.
Proof.
  induction fuel as [|fuel IH]; intros attempt lastErr k Hfuel; [lia |].
  destruct (Z.lt_ge_cases attempt maxAttempts) as [Hlt | Hge].
  - destruct (net k req) as [res | e] eqn:Hnet.
    + rewrite (retry_loop_resolved fuel attempt lastErr k res) by assumption.
      discriminate.
    + rewrite (retry_loop_rejected fuel attempt lastErr k e) by assumption.
      unfold result_of at 1. cbn [fst]. apply IH. lia.
  - rewrite retry_loop_exit by assumption. discriminate.
Qed.

(** Every request the loop makes is the request of lines 23-29. *)
Lemma retry_loop_posts (fuel : nat) :
  forall attempt lastErr k r,
    In (EvPost r) (trace_of (loop fuel attempt lastErr net k)) -> r = req.
Proof.
  induction fuel as [|fuel IH]; intros attempt lastErr k r Hin.
  - destruct Hin.
  - destruct (Z.lt_ge_cases attempt maxAttempts) as [Hlt | Hge].
    + destruct (net k req) as [res | e] eqn:Hnet.
      * rewrite (retry_loop_resolved fuel attempt lastErr k res) in Hin
          by assumption.
        destruct Hin as [Heq | []]. now inversion Heq.
      * rewrite (retry_loop_rejected fuel attempt lastErr k e) in Hin
          by assumption.
        unfold trace_of at 1 in Hin. cbn [snd] in Hin.
        destruct Hin as [Heq | [Heq | Hin]].
        -- now inversion Heq.
        -- discriminate Heq.
        -- exact (IH _ _ _ _ Hin).
    + rewrite retry_loop_exit in Hin by assumption. destruct Hin.
Qed.

End RetryLoop.

(** [sendWithRetry] always ends: it returns an acknowledgment or throws. *)
Lemma sendWithRetry_total url payload apiKey maxAttempts net k :
  result_of (sendWithRetry url payload apiKey maxAttempts net k) <> OutOfFuel.
Proof.
  unfold sendWithRetry. cbn zeta. apply retry_loop_total.
  unfold loop_fuel. lia.
Qed.

(** ** The scenarios of the spec, run *)

Example scenario_third_attempt_succeeds :
  let r := run (sendWithRetry "https://cb.example/x" example_payload
                              (Some "key123") 3) net_third_time in
  result_of r = Return (mk_ack (Some "stored"))
  /\ requests_made r = 3%nat
  /\ waits (trace_of r) = [1000; 2000].
Proof. repeat split. Qed.

Example scenario_delivered_message :
  trace_of (run (finishAndSend (example_params "https://cb.example/x")
                               example_snapshot) net_up)
  = [ EvSetMessage "Envoi des résultats...";
      EvPost (post_request "https://cb.example/x" example_payload
                           (Some "key123"));
      EvSetMessage "Résultats envoyés: stored" ].
Proof. reflexivity. Qed.

Example scenario_missing_callback_url :
  run (finishAndSend (parseParams [("session_id", "s-1")]) example_snapshot)
      net_up
  = (Return tt, 0%nat,
     [ EvSetMessage "Envoi des résultats...";
       EvConsoleError null_TypeError;
       EvSetMessage
         "Échec envoi résultats: Cannot read properties of null (reading 'startsWith')" ]).
Proof. reflexivity. Qed.

(** ** C1: attempts and waits under permanent failure *)

(** C1, as the spec states it, fails on the code: with [maxAttempts = 3]
    and a network that refuses every request, [sendWithRetry] makes three
    requests and waits three times (1000, 2000 and 4000 ms), where the spec
    promises the two waits 1000 and 2000 ms. *)
Lemma sendWithRetry_waits_after_last_attempt :
  List.length (posts (trace_of (run (sendWithRetry "https://cb.example/x"
                                  example_payload (Some "key123") 3)
                               net_down))) = 3%nat
  /\ waits (trace_of (run (sendWithRetry "https://cb.example/x"
                             example_payload (Some "key123") 3) net_down))
     = [1000; 2000; 4000]
  /\ spec_waits 3 = [1000; 2000]
  /\ waits (trace_of (run (sendWithRetry "https://cb.example/x"
                             example_payload (Some "key123") 3) net_down))
     <> spec_waits 3.
Proof. repeat split. intros H. discriminate H. Qed.

(** C1 (amended): for every [maxAttempts = n >= 1], when each of the [n]
    requests is rejected, [sendWithRetry] makes exactly [n] requests, each
    followed by a wait: [n] waits of [2^1*500, ..., 2^n*500] ms in order.
    The first [n-1] of them, those between two attempts, are the waits the
    spec lists; the last one follows the last attempt, before the throw. *)
Theorem sendWithRetry_permanent_failure url payload apiKey n net :
  1 <= n ->
  (forall k, (k < Z.to_nat n)%nat ->
             exists e, net k (post_request url payload apiKey) = Rejected e) ->
  let r := run (sendWithRetry url payload apiKey n) net in
  (exists v, result_of r = Throw v)
  /\ requests_made r = Z.to_nat n
  /\ trace_of r
     = backoff_trace (post_request url payload apiKey) 0 (Z.to_nat n)
  /\ posts (trace_of r)
     = repeat (post_request url payload apiKey) (Z.to_nat n)
  /\ waits (trace_of r)
     = map (fun j => 2 ^ Z.of_nat j * 500) (seq 1 (Z.to_nat n))
  /\ waits (trace_of r) = spec_waits n ++ [2 ^ n * 500].
Proof.
  intros Hn Hnet r.
  destruct (retry_loop_all_rejected url payload apiKey n net (Z.to_nat n)
              (loop_fuel n) 0 JsNull O) as [v [Hrun _]].
  - unfold loop_fuel. lia.
  - lia.
  - exact Hnet.
  - assert (Hr : r = (Throw v, Z.to_nat n,
                      backoff_trace (post_request url payload apiKey) 0
                                    (Z.to_nat n))) by exact Hrun.
    rewrite Hr. unfold result_of, requests_made, trace_of. cbn [fst snd].
    rewrite posts_backoff_trace, waits_backoff_trace.
    repeat split.
    + now exists v.
    + unfold spec_waits.
      destruct (Z.to_nat n) as [|p] eqn:Hp; [lia |].
      replace (S p - 1)%nat with p by lia.
      rewrite seq_S, map_app. cbn [map].
      replace (Z.of_nat (1 + p)) with n by lia. reflexivity.
Qed.

Lemma sendWithRetry_permanent_failure_witness :
  waits (trace_of (run (sendWithRetry "https://cb.example/x" example_payload
                                      (Some "key123") 3) net_down))
  = spec_waits 3 ++ [2 ^ 3 * 500].
Proof.
  refine (proj2 (proj2 (proj2 (proj2 (proj2
    (sendWithRetry_permanent_failure "https://cb.example/x" example_payload
       (Some "key123") 3 net_down _ _)))))).
  - lia.
  - intros k _. exists refused_error. reflexivity.
Defined.

(** ** C2: an endpoint that is not https *)

(** C2, as the spec states it, fails on the code: for the endpoint
    [http://insecure.example] the [try] block of [finishAndSend] throws
    before any request, but what it throws is a plain [Error], not an error
    of the kind ConfigurationError. *)
Lemma insecure_endpoint_error_is_plain_Error :
  exists v,
    run (finishAndSend_try (example_params "http://insecure.example")
                           example_payload) net_up
    = (Throw v, 0%nat, [])
    /\ v = JsError "Error" "callback_url doit être en HTTPS" JsNull
    /\ ~ is_ConfigurationError v.
Proof.
  exists https_error. repeat split.
  intros [message [cause H]]. discriminate H.
Qed.

(** C2 (amended): for every payload and every credential, if the endpoint
    URL does not begin with [https://], delivery fails at once with a plain
    [Error] whose message is "callback_url doit être en HTTPS": no request
    is made and no wait occurs.  [finishAndSend] catches that error itself,
    logs it and shows it in the status message. *)
Theorem insecure_endpoint_no_network sessionParams payload s url net k :
  callback_url sessionParams = Some url ->
  startsWith url "https://" = false ->
  finishAndSend_try sessionParams payload net k = (Throw https_error, k, [])
  /\ finishAndSend sessionParams s net k
     = (Return tt, k,
        [ EvSetMessage "Envoi des résultats...";
          EvConsoleError https_error;
          EvSetMessage "Échec envoi résultats: callback_url doit être en HTTPS" ])
  /\ posts (trace_of (finishAndSend sessionParams s net k)) = []
  /\ waits (trace_of (finishAndSend sessionParams s net k)) = [].
Proof.
  intros Hurl Hscheme.
  assert (Htry : forall p,
             finishAndSend_try sessionParams p net k
             = (Throw https_error, k, [])).
  { intros p. unfold finishAndSend_try. now rewrite Hurl, Hscheme. }
  assert (Hall : finishAndSend sessionParams s net k
                 = (Return tt, k,
                    [ EvSetMessage "Envoi des résultats...";
                      EvConsoleError https_error;
                      EvSetMessage
                        "Échec envoi résultats: callback_url doit être en HTTPS" ])).
  { unfold finishAndSend, bind, try_catch, setMessage. cbn zeta.
    now rewrite Htry. }
  rewrite Hall. repeat split. apply Htry.
Qed.

Lemma insecure_endpoint_no_network_witness :
  posts (trace_of (finishAndSend (example_params "http://insecure.example")
                                 example_snapshot net_up 0%nat)) = [].
Proof.
  refine (proj1 (proj2 (proj2
    (insecure_endpoint_no_network
       (example_params "http://insecure.example") example_payload
       example_snapshot "http://insecure.example" net_up 0%nat _ _)))).
  - reflexivity.
  - reflexivity.
Defined.

(** ** C3: what sendWithRetry throws *)

(** C3, as the spec states it, fails on the code: when the three attempts
    are refused, [sendWithRetry] throws the transport's own error, which is
    neither a DeliveryError nor a ConfigurationError and wraps nothing; and
    with [maxAttempts = 0] it throws [null]. *)
Lemma sendWithRetry_throws_unclassified :
  (exists v,
     result_of (run (sendWithRetry "https://cb.example/x" example_payload
                                   (Some "key123") 3) net_down) = Throw v
     /\ v = refused_error
     /\ ~ is_DeliveryError v
     /\ ~ is_DeliveryError_wrapping refused_error v
     /\ ~ is_ConfigurationError v)
  /\ (exists v,
        result_of (run (sendWithRetry "https://cb.example/x" example_payload
                                      (Some "key123") 0) net_down) = Throw v
        /\ v = JsNull
        /\ ~ is_DeliveryError v
        /\ ~ is_ConfigurationError v).
Proof.
  split.
  - exists refused_error. repeat split.
    + intros [message [cause H]]. discriminate H.
    + intros [message H]. discriminate H.
    + intros [message [cause H]]. discriminate H.
  - exists JsNull. repeat split.
    + intros [message [cause H]]. discriminate H.
    + intros [message [cause H]]. discriminate H.
Qed.

(** C3 (amended): [sendWithRetry] always ends.  If all [maxAttempts >= 1]
    requests are rejected it throws the value the last request was rejected
    with, as it is, unwrapped.  Conversely, whatever it throws is either
    that last rejection (every attempt having been made and rejected) or,
    when [maxAttempts <= 0], [null]. *)
Theorem sendWithRetry_throws_last_failure url payload apiKey n net k :
  result_of (sendWithRetry url payload apiKey n net k) <> OutOfFuel
  /\ (1 <= n ->
      (forall j, (j < Z.to_nat n)%nat ->
         exists e, net (k + j)%nat (post_request url payload apiKey)
                   = Rejected e) ->
      exists v,
        result_of (sendWithRetry url payload apiKey n net k) = Throw v
        /\ net (k + (Z.to_nat n - 1))%nat (post_request url payload apiKey)
           = Rejected v)
  /\ (forall v,
        result_of (sendWithRetry url payload apiKey n net k) = Throw v ->
        (n <= 0 /\ v = JsNull)
        \/ (1 <= n
            /\ net (k + (Z.to_nat n - 1))%nat
                   (post_request url payload apiKey) = Rejected v
            /\ requests_made (sendWithRetry url payload apiKey n net k)
               = (k + Z.to_nat n)%nat
            /\ forall j, (j < Z.to_nat n)%nat ->
                 exists e, net (k + j)%nat (post_request url payload apiKey)
                           = Rejected e)).
Proof.
  assert (Hall : forall m,
             Z.of_nat m = Z.max 0 (n - 0) ->
             (forall j, (j < m)%nat ->
                exists e, net (k + j)%nat (post_request url payload apiKey)
                          = Rejected e) ->
             exists v,
               sendWithRetry url payload apiKey n net k
               = (Throw v, (k + m)%nat,
                  backoff_trace (post_request url payload apiKey) 0 m)
               /\ match m with
                  | O => v = JsNull
                  | S m' => net (k + m')%nat (post_request url payload apiKey)
                            = Rejected v
                  end).
  { intros m Hm Hrej.
    apply (retry_loop_all_rejected url payload apiKey n net m
             (loop_fuel n) 0 JsNull k); [unfold loop_fuel; lia | lia | exact Hrej]. }
  split; [apply sendWithRetry_total | split].
  - intros Hn Hrej.
    destruct (Hall (Z.to_nat n) ltac:(lia) Hrej) as [v [Hrun Hlast]].
    exists v. rewrite Hrun. split; [reflexivity |].
    destruct (Z.to_nat n) as [|p] eqn:Hp; [lia |].
    now replace (S p - 1)%nat with p by lia.
  - intros v Hthrow.
    destruct (retry_loop_throw_inv url payload apiKey n net (loop_fuel n)
                0 JsNull k v Hthrow) as [m [_ [Hm Hrej]]].
    destruct (Hall m Hm Hrej) as [v' [Hrun Hlast]].
    rewrite Hrun in Hthrow. unfold result_of in Hthrow. cbn [fst] in Hthrow.
    injection Hthrow as ->.
    destruct m as [|p].
    + left. split; [lia | exact Hlast].
    + right. assert (Hp : Z.to_nat n = S p) by lia.
      rewrite Hrun, Hp. unfold requests_made. cbn [fst snd].
      replace (S p - 1)%nat with p by lia.
      repeat split; [lia | exact Hlast | exact Hrej].
Qed.

Lemma sendWithRetry_throws_last_failure_witness :
  exists v,
    result_of (sendWithRetry "https://cb.example/x" example_payload
                             (Some "key123") 3 net_down 0%nat) = Throw v
    /\ net_down (0 + (Z.to_nat 3 - 1))%nat
                (post_request "https://cb.example/x" example_payload
                              (Some "key123")) = Rejected v.
Proof.
  refine (proj1 (proj2
    (sendWithRetry_throws_last_failure "https://cb.example/x" example_payload
       (Some "key123") 3 net_down 0%nat)) _ _).
  - lia.
  - intros j _. exists refused_error. reflexivity.
Defined.

(** ** C4: success at the first attempt *)

(** C4: for every payload and credential, if the first request is accepted
    (and there is a first request: [maxAttempts >= 1]), [sendWithRetry]
    makes exactly one request, performs no wait and returns the
    acknowledgment. *)
Theorem sendWithRetry_first_attempt_succeeds url payload apiKey n net k res :
  1 <= n ->
  net k (post_request url payload apiKey) = Resolved res ->
  sendWithRetry url payload apiKey n net k
  = (Return (res_data res), S k, [EvPost (post_request url payload apiKey)])
  /\ posts (trace_of (sendWithRetry url payload apiKey n net k))
     = [post_request url payload apiKey]
  /\ waits (trace_of (sendWithRetry url payload apiKey n net k)) = [].
Proof.
  intros Hn Hnet.
  assert (Hrun : sendWithRetry url payload apiKey n net k
                 = (Return (res_data res), S k,
                    [EvPost (post_request url payload apiKey)])).
  { unfold sendWithRetry, loop_fuel. cbn zeta.
    apply retry_loop_resolved; [lia | exact Hnet]. }
  rewrite Hrun. repeat split.
Qed.

Lemma sendWithRetry_first_attempt_succeeds_witness :
  waits (trace_of (sendWithRetry "https://cb.example/x" example_payload
                                 (Some "key123") 3 net_up 0%nat)) = [].
Proof.
  refine (proj2 (proj2
    (sendWithRetry_first_attempt_succeeds "https://cb.example/x"
       example_payload (Some "key123") 3 net_up 0%nat
       (mk_response 200 (mk_ack (Some "stored"))) _ _))).
  - lia.
  - reflexivity.
Defined.

(** ** C9: no attempt allowed *)

(** C9: with [maxAttempts <= 0] the loop body never runs: no request is
    made, nothing is waited for, and [sendWithRetry] throws the initial
    value of [lastErr], [null], which is not an error object. *)
Theorem sendWithRetry_no_attempts url payload apiKey n net k :
  n <= 0 ->
  sendWithRetry url payload apiKey n net k = (Throw JsNull, k, [])
  /\ posts (trace_of (sendWithRetry url payload apiKey n net k)) = []
  /\ (forall name message cause, JsNull <> JsError name message cause).
Proof.
  intros Hn.
  assert (Hrun : sendWithRetry url payload apiKey n net k
                 = (Throw JsNull, k, [])).
  { unfold sendWithRetry, loop_fuel. cbn zeta.
    apply retry_loop_exit. lia. }
  rewrite Hrun. repeat split. intros name message cause H. discriminate H.
Qed.

Lemma sendWithRetry_no_attempts_witness :
  sendWithRetry "https://cb.example/x" example_payload (Some "key123") 0
                net_up 0%nat
  = (Throw JsNull, 0%nat, []).
Proof.
  refine (proj1
    (sendWithRetry_no_attempts "https://cb.example/x" example_payload
       (Some "key123") 0 net_up 0%nat _)).
  lia.
Defined.

(** ** C6 and C8: the requests of a delivery *)

(** Every request of a call of [sendWithRetry] is the request built from
    its three arguments. *)
Lemma sendWithRetry_posts url payload apiKey n net k r :
  In (EvPost r) (trace_of (sendWithRetry url payload apiKey n net k)) ->
  r = post_request url payload apiKey.
Proof.
  unfold sendWithRetry. cbn zeta. apply retry_loop_posts.
Qed.

(** C6: every request made by [sendWithRetry] is a POST with the headers
    [Content-Type: application/json] and [x-api-key: <credential>] and a
    timeout of 10000 ms. *)
Theorem sendWithRetry_request_shape url payload apiKey n net k r :
  In (EvPost r) (trace_of (sendWithRetry url payload apiKey n net k)) ->
  req_method r = POST
  /\ req_headers r = [ ("Content-Type", Some "application/json");
                       ("x-api-key", apiKey) ]
  /\ req_timeout r = 10000.
Proof.
  intros Hin. rewrite (sendWithRetry_posts _ _ _ _ _ _ _ Hin).
  repeat split.
Qed.

Lemma sendWithRetry_request_shape_witness :
  req_method (post_request "https://cb.example/x" example_payload
                           (Some "key123")) = POST
  /\ req_headers (post_request "https://cb.example/x" example_payload
                               (Some "key123"))
     = [ ("Content-Type", Some "application/json");
         ("x-api-key", Some "key123") ]
  /\ req_timeout (post_request "https://cb.example/x" example_payload
                               (Some "key123")) = 10000.
Proof.
  refine (sendWithRetry_request_shape "https://cb.example/x" example_payload
            (Some "key123") 3 net_third_time 0%nat
            (post_request "https://cb.example/x" example_payload
                          (Some "key123")) _).
  cbn. right. right. left. reflexivity.
Defined.

(** C8: on every attempt [sendWithRetry] sends the payload and the
    credential it was given, unchanged: each request carries that payload as
    its body and that credential as its [x-api-key] header, to the same URL,
    and any two requests of a call are equal. *)
Theorem sendWithRetry_payload_unchanged url payload apiKey n net k r r' :
  In (EvPost r) (trace_of (sendWithRetry url payload apiKey n net k)) ->
  In (EvPost r') (trace_of (sendWithRetry url payload apiKey n net k)) ->
  req_data r = payload
  /\ In ("x-api-key", apiKey) (req_headers r)
  /\ req_url r = url
  /\ r = r'.
Proof.
  intros Hin Hin'.
  rewrite (sendWithRetry_posts _ _ _ _ _ _ _ Hin).
  rewrite (sendWithRetry_posts _ _ _ _ _ _ _ Hin').
  repeat split. cbn. right. left. reflexivity.
Qed.

Lemma sendWithRetry_payload_unchanged_witness :
  req_data (post_request "https://cb.example/x" example_payload
                         (Some "key123")) = example_payload
  /\ In ("x-api-key", Some "key123")
        (req_headers (post_request "https://cb.example/x" example_payload
                                   (Some "key123")))
  /\ req_url (post_request "https://cb.example/x" example_payload
                           (Some "key123")) = "https://cb.example/x"
  /\ post_request "https://cb.example/x" example_payload (Some "key123")
     = post_request "https://cb.example/x" example_payload (Some "key123").
Proof.
  refine (sendWithRetry_payload_unchanged "https://cb.example/x"
            example_payload (Some "key123") 3 net_third_time 0%nat
            (post_request "https://cb.example/x" example_payload
                          (Some "key123"))
            (post_request "https://cb.example/x" example_payload
                          (Some "key123")) _ _).
  - cbn. left. reflexivity.
  - cbn. right. right. right. right. left. reflexivity.
Defined.

(** ** C5: the grade *)

(** C5: the grade of the payload depends on the score alone, by fixed
    thresholds: A from 85, B from 70 to 84, C below 70. *)
Theorem grade_thresholds sessionParams s :
  grade (summary (build_payload sessionParams s)) = grade_of (snap_score s)
  /\ (85 <= snap_score s ->
      grade (summary (build_payload sessionParams s)) = "A")
  /\ (70 <= snap_score s < 85 ->
      grade (summary (build_payload sessionParams s)) = "B")
  /\ (snap_score s < 70 ->
      grade (summary (build_payload sessionParams s)) = "C")
  /\ grade_of 85 = "A" /\ grade_of 84 = "B" /\ grade_of 70 = "B"
  /\ grade_of 69 = "C" /\ grade_of 100 = "A" /\ grade_of 0 = "C".
Proof.
  cbn [build_payload summary grade]. unfold grade_of.
  repeat split; intros;
    destruct (Z.geb_spec (snap_score s) 85);
    destruct (Z.geb_spec (snap_score s) 70); solve [reflexivity | lia].
Qed.

Lemma grade_thresholds_witness :
  grade (summary (build_payload (example_params "https://cb.example/x")
                                example_snapshot)) = "B".
Proof.
  refine (proj1 (proj2 (proj2
    (grade_thresholds (example_params "https://cb.example/x")
                      example_snapshot))) _).
  cbn. lia.
Defined.

(** ** C7: identifiers and mode of the payload *)

(** C7, as the spec states it, fails on the code: a [learner_id] that is
    present in the query string with an empty value is not copied; the
    payload carries the sentinel instead. *)
Lemma empty_learner_id_is_replaced :
  learner_id (parseParams [("session_id", "s-1"); ("learner_id", "")])
  = Some ""
  /\ p_learner_id
       (build_payload
          (parseParams [("session_id", "s-1"); ("learner_id", "")])
          example_snapshot)
     = "learner-unknown"
  /\ p_learner_id
       (build_payload
          (parseParams [("session_id", "s-1"); ("learner_id", "")])
          example_snapshot)
     <> "".
Proof. repeat split. intros H. discriminate H. Qed.

(** C7 (amended): in the payload, [learner_id] and [resource_id] are the
    sentinels "learner-unknown" and "resource-unknown" when the parameter is
    absent from the query string or empty, and [mode] is "learning" when
    absent or empty; a parameter that is present and not empty is copied
    unchanged. *)
Theorem payload_identifier_defaults (q : URLSearchParams) (s : run_snapshot) :
  (falsy (get q "learner_id") = true ->
   p_learner_id (build_payload (parseParams q) s) = "learner-unknown")
  /\ (falsy (get q "resource_id") = true ->
      p_resource_id (build_payload (parseParams q) s) = "resource-unknown")
  /\ (falsy (get q "mode") = true ->
      p_mode (build_payload (parseParams q) s) = "learning")
  /\ (forall v, get q "learner_id" = Some v -> v <> "" ->
        p_learner_id (build_payload (parseParams q) s) = v)
  /\ (forall v, get q "resource_id" = Some v -> v <> "" ->
        p_resource_id (build_payload (parseParams q) s) = v)
  /\ (forall v, get q "mode" = Some v -> v <> "" ->
        p_mode (build_payload (parseParams q) s) = v).
Proof.
  cbn [build_payload parseParams p_learner_id p_resource_id p_mode
       learner_id resource_id mode].
  repeat split.
  - destruct (get q "learner_id") as [[|c v]|]; cbn; congruence.
  - destruct (get q "resource_id") as [[|c v]|]; cbn; congruence.
  - destruct (get q "mode") as [[|c v]|]; cbn; congruence.
  - intros v -> Hv. destruct v; [congruence | reflexivity].
  - intros v -> Hv. destruct v; [congruence | reflexivity].
  - intros v -> Hv. destruct v; [congruence | reflexivity].
Qed.

Lemma payload_identifier_defaults_witness :
  p_learner_id
    (build_payload
       (parseParams [("learner_id", "L-7"); ("mode", "exam")])
       example_snapshot) = "L-7"
  /\ p_resource_id
       (build_payload
          (parseParams [("learner_id", "L-7"); ("mode", "exam")])
          example_snapshot) = "resource-unknown"
  /\ p_mode
       (build_payload
          (parseParams [("learner_id", "L-7"); ("mode", "exam")])
          example_snapshot) = "exam".
Proof.
  pose proof (payload_identifier_defaults
                [("learner_id", "L-7"); ("mode", "exam")] example_snapshot)
    as [_ [Hres [_ [Hlearner [_ Hmode]]]]].
  split; [| split].
  - apply Hlearner; [reflexivity | discriminate].
  - apply Hres. reflexivity.
  - apply Hmode; [reflexivity | discriminate].
Defined.

(** ** C10: the temperature stays in range *)

(** The update is a clamp: it keeps a drifted value that is in range. *)
Lemma update_temperature_in_range (rnd t : Q) :
  (100 <= t + (rnd - (1 # 2)) * 4)%Q ->
  (t + (rnd - (1 # 2)) * 4 <= 250)%Q ->
  (update_temperature rnd t == t + (rnd - (1 # 2)) * 4)%Q.
Proof.
  intros Hlo Hhi. unfold update_temperature.
  rewrite (Q.min_r _ _ Hhi). apply Q.max_r. exact Hlo.
Qed.

(** C10: after a tick the temperature lies in [100, 250], whatever the
    temperature before and whatever the random drift: the update clamps the
    drifted temperature [t + (rnd - 0.5) * 4].  The new temperature is the
    drifted one when that lies in [100, 250], 100 when it is below 100 and
    250 when it is above 250. *)
Theorem tick_temperature_clamped closure_targetTime closure_temperature
    rnd_drift rnd_event now s :
  ((100 <= temperature (tick closure_targetTime closure_temperature
                             rnd_drift rnd_event now s))
   /\ (temperature (tick closure_targetTime closure_temperature
                         rnd_drift rnd_event now s) <= 250)
   /\ (100 <= temperature s + (rnd_drift - (1 # 2)) * 4 ->
       temperature s + (rnd_drift - (1 # 2)) * 4 <= 250 ->
       temperature (tick closure_targetTime closure_temperature
                         rnd_drift rnd_event now s)
       == temperature s + (rnd_drift - (1 # 2)) * 4)
   /\ (temperature s + (rnd_drift - (1 # 2)) * 4 < 100 ->
       temperature (tick closure_targetTime closure_temperature
                         rnd_drift rnd_event now s) == 100)
   /\ (250 < temperature s + (rnd_drift - (1 # 2)) * 4 ->
       temperature (tick closure_targetTime closure_temperature
                         rnd_drift rnd_event now s) == 250))%Q.
Proof.
  cbn [tick temperature]. repeat split.
  - unfold update_temperature. apply Q.le_max_l.
  - unfold update_temperature. apply Q.max_lub.
    + discriminate.
    + apply Q.le_min_l.
  - apply update_temperature_in_range.
  - intros Hlow. unfold update_temperature.
    apply Q.max_l.
    apply (Qle_trans _ (temperature s + (rnd_drift - (1 # 2)) * 4)).
    + apply Q.le_min_r.
    + apply Qlt_le_weak. exact Hlow.
  - intros Hhigh. unfold update_temperature.
    rewrite (Q.min_l 250 (temperature s + (rnd_drift - (1 # 2)) * 4))
      by (apply Qlt_le_weak; exact Hhigh).
    apply Q.max_r. discriminate.
Qed.

Lemma tick_temperature_clamped_witness :
  (temperature (tick 300 200 (3 # 4) (1 # 2) "t1"
                     (mk_sim_state true 5 300 200 []))
   == 200 + ((3 # 4) - (1 # 2)) * 4)%Q
  /\ (temperature (tick 300 200 0 (1 # 2) "t1"
                        (mk_sim_state true 5 300 (101 # 1) []))
      == 100)%Q
  /\ (temperature (tick 300 200 (3 # 4) (1 # 2) "t1"
                        (mk_sim_state true 5 300 250 []))
      == 250)%Q.
Proof.
  split; [| split].
  - refine (proj1 (proj2 (proj2
      (tick_temperature_clamped 300 200 (3 # 4) (1 # 2) "t1"
         (mk_sim_state true 5 300 200 [])))) _ _); discriminate.
  - refine (proj1 (proj2 (proj2 (proj2
      (tick_temperature_clamped 300 200 0 (1 # 2) "t1"
         (mk_sim_state true 5 300 (101 # 1) []))))) _); reflexivity.
  - refine (proj2 (proj2 (proj2 (proj2
      (tick_temperature_clamped 300 200 (3 # 4) (1 # 2) "t1"
         (mk_sim_state true 5 300 250 []))))) _); reflexivity.
Defined.

(** ** More on sendWithRetry: the shape of every run *)

Lemma posts_app (t t' : list io_event) : posts (t ++ t') = posts t ++ posts t'.
Proof.
  induction t as [|e t IH]; [reflexivity |].
  destruct e; cbn [app posts]; now rewrite IH.
Qed.

Lemma waits_app (t t' : list io_event) : waits (t ++ t') = waits t ++ waits t'.
Proof.
  induction t as [|e t IH]; [reflexivity |].
  destruct e; cbn [app waits]; now rewrite IH.
Qed.

(** A run of the loop is a number [j] of rejected requests, each followed
    by its wait, and then either the throw, no attempt being left, or one
    more request, which is accepted. *)
Lemma retry_loop_shape url payload apiKey n net (fuel : nat) :
  forall attempt lastErr k,
    (Z.to_nat (n - attempt) < fuel)%nat ->
    exists j : nat,
      (forall i, (i < j)%nat ->
         exists e, net (k + i)%nat (post_request url payload apiKey)
                   = Rejected e)
      /\ ((exists v,
             retry_loop url payload apiKey n fuel attempt lastErr net k
             = (Throw v, (k + j)%nat,
                backoff_trace (post_request url payload apiKey) attempt j)
             /\ Z.of_nat j = Z.max 0 (n - attempt))
          \/ (exists res,
                net (k + j)%nat (post_request url payload apiKey)
                = Resolved res
                /\ Z.of_nat j < n - attempt
                /\ retry_loop url payload apiKey n fuel attempt lastErr net k
                   = (Return (res_data res), S (k + j),
                      backoff_trace (post_request url payload apiKey)
                                    attempt j
                        ++ [EvPost (post_request url payload apiKey)]))).
Proof.
  induction fuel as [|fuel IH]; intros attempt lastErr k Hfuel; [lia |].
  destruct (Z.lt_ge_cases attempt n) as [Hlt | Hge].
  - destruct (net k (post_request url payload apiKey)) as [res | e] eqn:Hnet.
    + exists O. split; [intros i Hi; lia |]. right. exists res.
      rewrite Nat.add_0_r. repeat split; [exact Hnet | lia |].
      now apply retry_loop_resolved.
    + destruct (IH (attempt + 1) e (S k) ltac:(lia)) as [j [Hrej Hend]].
      exists (S j). split.
      * intros [|i] Hi.
        -- exists e. now rewrite Nat.add_0_r.
        -- destruct (Hrej i ltac:(lia)) as [e' He'].
           exists e'. now rewrite Nat.add_succ_r.
      * rewrite (retry_loop_rejected url payload apiKey n net fuel attempt
                   lastErr k e Hlt Hnet).
        rewrite backoff_trace_succ.
        destruct Hend as [[v [Hrun Hj]] | [res [Hres [Hj Hrun]]]].
        -- left. exists v. rewrite Hrun.
           unfold result_of, requests_made, trace_of. cbn [fst snd].
           split; [| lia]. f_equal. f_equal. lia.
        -- right. exists res. rewrite Hrun.
           unfold result_of, requests_made, trace_of. cbn [fst snd].
           repeat split.
           ++ now rewrite Nat.add_succ_r.
           ++ lia.
           ++ f_equal. f_equal. lia.
  - exists O. split; [intros i Hi; lia |]. left. exists lastErr.
    rewrite Nat.add_0_r. split; [| lia].
    now apply retry_loop_exit.
Qed.

Lemma sendWithRetry_shape url payload apiKey n net k :
  exists j : nat,
    (forall i, (i < j)%nat ->
       exists e, net (k + i)%nat (post_request url payload apiKey)
                 = Rejected e)
    /\ ((exists v,
           sendWithRetry url payload apiKey n net k
           = (Throw v, (k + j)%nat,
              backoff_trace (post_request url payload apiKey) 0 j)
           /\ Z.of_nat j = Z.max 0 n)
        \/ (exists res,
              net (k + j)%nat (post_request url payload apiKey) = Resolved res
              /\ Z.of_nat j < n
              /\ sendWithRetry url payload apiKey n net k
                 = (Return (res_data res), S (k + j),
                    backoff_trace (post_request url payload apiKey) 0 j
                      ++ [EvPost (post_request url payload apiKey)]))).
Proof.
  destruct (retry_loop_shape url payload apiKey n net (loop_fuel n) 0 JsNull k)
    as [j [Hrej Hend]]; [unfold loop_fuel; lia |].
  exists j. split; [exact Hrej |].
  unfold sendWithRetry. cbn zeta.
  destruct Hend as [[v [Hrun Hj]] | [res [Hres [Hj Hrun]]]].
  - left. exists v. split; [exact Hrun | lia].
  - right. exists res. repeat split; [exact Hres | lia | exact Hrun].
Qed.

Lemma length_posts_backoff_trace req attempt j :
  List.length (posts (backoff_trace req attempt j)) = j.
Proof. rewrite posts_backoff_trace. apply repeat_length. Qed.

Lemma length_waits_backoff_trace req attempt j :
  List.length (waits (backoff_trace req attempt j)) = j.
Proof.
  rewrite waits_backoff_trace. now rewrite length_map, length_seq.
Qed.

Lemma total_wait_backoff_trace req j :
  total_wait (backoff_trace req 0 j) = 1000 * (2 ^ Z.of_nat j - 1).
Proof.
  unfold total_wait. rewrite waits_backoff_trace.
  induction j as [|j IH]; [reflexivity |].
  rewrite seq_S, map_app, fold_right_app. cbn [map fold_right].
  replace (fold_right Z.add (2 ^ (0 + Z.of_nat (1 + j)) * 500 + 0)
             (map (fun i => 2 ^ (0 + Z.of_nat i) * 500) (seq 1 j)))
    with (fold_right Z.add 0
            (map (fun i => 2 ^ (0 + Z.of_nat i) * 500) (seq 1 j))
          + 2 ^ (0 + Z.of_nat (1 + j)) * 500).
  - rewrite IH.
    replace (0 + Z.of_nat (1 + j)) with (Z.succ (Z.of_nat j)) by lia.
    replace (Z.of_nat (S j)) with (Z.succ (Z.of_nat j)) by lia.
    rewrite Z.pow_succ_r by lia. lia.
  - generalize (2 ^ (0 + Z.of_nat (1 + j)) * 500) as x.
    generalize (map (fun i => 2 ^ (0 + Z.of_nat i) * 500) (seq 1 j)) as l.
    induction l as [|y l IHl]; intros x; cbn [fold_right]; [lia |].
    rewrite <- IHl. lia.
Qed.

(** X1: when the first [j] requests are rejected and the next one is
    accepted, [j] being less than [maxAttempts], [sendWithRetry] returns the
    body of that response after [j + 1] requests and the [j] waits
    [2^1*500, ..., 2^j*500]; nothing follows the accepted request. *)
Theorem sendWithRetry_succeeds_after_failures url payload apiKey n net k j res :
  Z.of_nat j < n ->
  (forall i, (i < j)%nat ->
     exists e, net (k + i)%nat (post_request url payload apiKey)
               = Rejected e) ->
  net (k + j)%nat (post_request url payload apiKey) = Resolved res ->
  sendWithRetry url payload apiKey n net k
  = (Return (res_data res), S (k + j),
     backoff_trace (post_request url payload apiKey) 0 j
       ++ [EvPost (post_request url payload apiKey)])
  /\ List.length (posts (trace_of (sendWithRetry url payload apiKey n net k)))
     = S j
  /\ waits (trace_of (sendWithRetry url payload apiKey n net k))
     = map (fun i => 2 ^ Z.of_nat i * 500) (seq 1 j).
Proof.
  intros Hj Hrej Hres.
  assert (Hrun : sendWithRetry url payload apiKey n net k
                 = (Return (res_data res), S (k + j),
                    backoff_trace (post_request url payload apiKey) 0 j
                      ++ [EvPost (post_request url payload apiKey)])).
  { destruct (sendWithRetry_shape url payload apiKey n net k)
      as [j' [Hrej' Hend]].
    destruct (Nat.lt_trichotomy j' j) as [Hlt | [Heq | Hgt]].
    - destruct (Hrej j' Hlt) as [e He].
      destruct Hend as [[v [_ Hj']] | [res' [Hres' _]]]; [lia | congruence].
    - subst j'.
      destruct Hend as [[v [_ Hj']] | [res' [Hres' [_ Hrun]]]]; [lia |].
      rewrite Hrun. congruence.
    - destruct (Hrej' j Hgt) as [e He]. congruence. }
  rewrite Hrun. unfold trace_of. cbn [snd].
  rewrite posts_app, waits_app, length_app, length_posts_backoff_trace.
  rewrite waits_backoff_trace. cbn [posts waits List.length].
  repeat split; [lia |]. now rewrite app_nil_r.
Qed.

Lemma sendWithRetry_succeeds_after_failures_witness :
  waits (trace_of (sendWithRetry "https://cb.example/x" example_payload
                                 (Some "key123") 3 net_third_time 0%nat))
  = map (fun i => 2 ^ Z.of_nat i * 500) (seq 1 2).
Proof.
  refine (proj2 (proj2
    (sendWithRetry_succeeds_after_failures "https://cb.example/x"
       example_payload (Some "key123") 3 net_third_time 0%nat 2%nat
       (mk_response 200 (mk_ack (Some "stored"))) _ _ _))).
  - lia.
  - intros i Hi. exists timeout_error.
    destruct i as [|[|i]]; [reflexivity | reflexivity | lia].
  - reflexivity.
Defined.

(** X2: [sendWithRetry] never makes more than [maxAttempts] requests (none
    when [maxAttempts <= 0]), whatever the network answers. *)
Theorem sendWithRetry_attempt_bound url payload apiKey n net k :
  Z.of_nat (List.length
              (posts (trace_of (sendWithRetry url payload apiKey n net k))))
  <= Z.max 0 n
  /\ requests_made (sendWithRetry url payload apiKey n net k)
     = (k + List.length
              (posts (trace_of (sendWithRetry url payload apiKey n net k))))%nat.
Proof.
  destruct (sendWithRetry_shape url payload apiKey n net k)
    as [j [_ [[v [Hrun Hj]] | [res [_ [Hj Hrun]]]]]];
    rewrite Hrun; unfold trace_of, requests_made; cbn [fst snd].
  - rewrite length_posts_backoff_trace. lia.
  - rewrite posts_app, length_app, length_posts_backoff_trace.
    cbn [posts List.length]. lia.
Qed.

(** X3: in every run of [sendWithRetry] each rejected request is followed
    by exactly one wait and the accepted one by none: a run that throws has
    as many waits as requests, a run that returns has one request more. *)
Theorem sendWithRetry_waits_and_posts url payload apiKey n net k :
  match result_of (sendWithRetry url payload apiKey n net k) with
  | Throw _ =>
      List.length (waits (trace_of (sendWithRetry url payload apiKey n net k)))
      = List.length
          (posts (trace_of (sendWithRetry url payload apiKey n net k)))
  | Return _ =>
      List.length (posts (trace_of (sendWithRetry url payload apiKey n net k)))
      = S (List.length
             (waits (trace_of (sendWithRetry url payload apiKey n net k))))
  | OutOfFuel => False
  end.
Proof.
  destruct (sendWithRetry_shape url payload apiKey n net k)
    as [j [_ [[v [Hrun Hj]] | [res [_ [Hj Hrun]]]]]];
    rewrite Hrun; unfold trace_of, result_of; cbn [fst snd].
  - now rewrite length_posts_backoff_trace, length_waits_backoff_trace.
  - rewrite posts_app, waits_app, !length_app, length_posts_backoff_trace,
      length_waits_backoff_trace.
    cbn [posts waits List.length]. lia.
Qed.

(** X4: what [sendWithRetry] returns is the body of the first response that
    was accepted: every request before it was rejected, and no request was
    made after it. *)
Theorem sendWithRetry_returns_first_success url payload apiKey n net k data :
  result_of (sendWithRetry url payload apiKey n net k) = Return data ->
  exists (j : nat) (res : response),
    Z.of_nat j < n
    /\ (forall i, (i < j)%nat ->
          exists e, net (k + i)%nat (post_request url payload apiKey)
                    = Rejected e)
    /\ net (k + j)%nat (post_request url payload apiKey) = Resolved res
    /\ data = res_data res
    /\ requests_made (sendWithRetry url payload apiKey n net k) = S (k + j).
Proof.
  intros Hret.
  destruct (sendWithRetry_shape url payload apiKey n net k)
    as [j [Hrej [[v [Hrun Hj]] | [res [Hres [Hj Hrun]]]]]];
    rewrite Hrun in Hret |- *; unfold result_of in Hret; cbn [fst] in Hret.
  - discriminate Hret.
  - exists j, res. injection Hret as <-. repeat split; assumption.
Qed.

Lemma sendWithRetry_returns_first_success_witness :
  exists (j : nat) (res : response),
    Z.of_nat j < 3
    /\ (forall i, (i < j)%nat ->
          exists e, net_third_time (0 + i)%nat
                      (post_request "https://cb.example/x" example_payload
                                    (Some "key123")) = Rejected e)
    /\ net_third_time (0 + j)%nat
         (post_request "https://cb.example/x" example_payload (Some "key123"))
       = Resolved res
    /\ mk_ack (Some "stored") = res_data res
    /\ requests_made (sendWithRetry "https://cb.example/x" example_payload
                                    (Some "key123") 3 net_third_time 0%nat)
       = S (0 + j).
Proof.
  refine (sendWithRetry_returns_first_success "https://cb.example/x"
            example_payload (Some "key123") 3 net_third_time 0%nat
            (mk_ack (Some "stored")) _).
  reflexivity.
Defined.

(** X5: the time [sendWithRetry] spends waiting is [1000 * (2^w - 1)] ms,
    [w] being the number of its waits, and [w] is at most [maxAttempts]: a
    call never waits more than [1000 * (2^maxAttempts - 1)] ms in total. *)
Theorem sendWithRetry_total_wait url payload apiKey n net k :
  total_wait (trace_of (sendWithRetry url payload apiKey n net k))
  = 1000 * (2 ^ Z.of_nat
                  (List.length
                     (waits (trace_of
                               (sendWithRetry url payload apiKey n net k))))
            - 1)
  /\ Z.of_nat (List.length
                 (waits (trace_of (sendWithRetry url payload apiKey n net k))))
     <= Z.max 0 n
  /\ total_wait (trace_of (sendWithRetry url payload apiKey n net k))
     <= 1000 * (2 ^ Z.max 0 n - 1).
Proof.
  assert (Hmono : forall j : nat,
             Z.of_nat j <= Z.max 0 n ->
             1000 * (2 ^ Z.of_nat j - 1) <= 1000 * (2 ^ Z.max 0 n - 1)).
  { intros j Hj.
    assert (2 ^ Z.of_nat j <= 2 ^ Z.max 0 n)
      by (apply Z.pow_le_mono_r; lia).
    lia. }
  destruct (sendWithRetry_shape url payload apiKey n net k)
    as [j [_ [[v [Hrun Hj]] | [res [_ [Hj Hrun]]]]]];
    rewrite Hrun; unfold trace_of; cbn [snd].
  - rewrite length_waits_backoff_trace, total_wait_backoff_trace.
    repeat split; [lia | apply Hmono; lia].
  - assert (Hw : waits (backoff_trace (post_request url payload apiKey) 0 j
                        ++ [EvPost (post_request url payload apiKey)])
                 = waits (backoff_trace (post_request url payload apiKey) 0 j)).
    { rewrite waits_app. cbn [waits]. apply app_nil_r. }
    unfold total_wait. rewrite Hw.
    fold (total_wait (backoff_trace (post_request url payload apiKey) 0 j)).
    rewrite length_waits_backoff_trace, total_wait_backoff_trace.
    repeat split; [lia | apply Hmono; lia].
Qed.

(** ** finishAndSend as a whole *)

Lemma prefix_append (p s : string) : String.prefix p (p ++ s)%string = true.
Proof.
  induction p as [|c p IH]; cbn; [now destruct s |].
  destruct (Ascii.ascii_dec c c); [exact IH | congruence].
Qed.

Lemma prefix_inv (p s : string) :
  String.prefix p s = true -> exists rest, s = (p ++ rest)%string.
Proof.
  revert s. induction p as [|c p IH]; intros s H.
  - now exists s.
  - destruct s as [|c' s]; [discriminate H |].
    cbn in H. destruct (Ascii.ascii_dec c c') as [-> | _]; [| discriminate H].
    destruct (IH s H) as [rest ->]. now exists rest.
Qed.

(** With an https endpoint, [finishAndSend] is [sendWithRetry] between the
    first message and the message that reports its outcome. *)
Lemma finishAndSend_https sessionParams s net k url :
  callback_url sessionParams = Some url ->
  startsWith url "https://" = true ->
  finishAndSend sessionParams s net k
  = match sendWithRetry url (build_payload sessionParams s)
                        (api_key sessionParams) 3 net k with
    | (Return data, k', t) =>
        (Return tt, k',
         EvSetMessage "Envoi des résultats..."
           :: t ++ [ EvSetMessage ("Résultats envoyés: "
                                   ++ or_default (ack_message data) "OK") ])
    | (Throw err, k', t) =>
        (Return tt, k',
         EvSetMessage "Envoi des résultats..."
           :: t ++ [ EvConsoleError err;
                     EvSetMessage ("Échec envoi résultats: "
                                   ++ or_default (opt_message err)
                                                 (to_String err)) ])
    | (OutOfFuel, k', t) =>
        (OutOfFuel, k', EvSetMessage "Envoi des résultats..." :: t)
    end.
Proof.
  intros Hurl Hscheme.
  unfold finishAndSend, finishAndSend_try, finishAndSend_catch.
  cbn zeta. rewrite Hurl, Hscheme.
  unfold bind, try_catch, setMessage, console_error. cbn [negb].
  destruct (sendWithRetry url (build_payload sessionParams s)
              (api_key sessionParams) 3 net k) as [[[data | err |] k'] t];
    reflexivity.
Qed.

(** Without an https endpoint, [finishAndSend] reports the error of the
    guard at once. *)
Lemma finishAndSend_refused sessionParams s net k :
  (forall url, callback_url sessionParams = Some url ->
               startsWith url "https://" = false) ->
  exists err,
    (err = https_error \/ err = null_TypeError)
    /\ finishAndSend sessionParams s net k
       = (Return tt, k,
          [ EvSetMessage "Envoi des résultats...";
            EvConsoleError err;
            EvSetMessage ("Échec envoi résultats: "
                          ++ or_default (opt_message err) (to_String err)) ]).
Proof.
  intros Hscheme.
  unfold finishAndSend, finishAndSend_try, finishAndSend_catch.
  cbn zeta.
  destruct (callback_url sessionParams) as [url |].
  - exists https_error. split; [now left |].
    now rewrite (Hscheme url eq_refl).
  - exists null_TypeError. split; [now right | reflexivity].
Qed.

(** X6: [finishAndSend] never throws, whatever the parameters and the
    network: it returns after a last status message, which reports either
    the delivery or its failure. *)
Theorem finishAndSend_never_throws sessionParams s net k :
  result_of (finishAndSend sessionParams s net k) = Return tt
  /\ exists t msg,
       trace_of (finishAndSend sessionParams s net k)
       = EvSetMessage "Envoi des résultats..." :: t ++ [EvSetMessage msg]
       /\ (startsWith msg "Résultats envoyés: " = true
           \/ startsWith msg "Échec envoi résultats: " = true).
Proof.
  destruct (callback_url sessionParams) as [url |] eqn:Hurl.
  - destruct (startsWith url "https://") eqn:Hscheme.
    + rewrite (finishAndSend_https sessionParams s net k url Hurl Hscheme).
      pose proof (sendWithRetry_total url (build_payload sessionParams s)
                    (api_key sessionParams) 3 net k) as Htotal.
      destruct (sendWithRetry url (build_payload sessionParams s)
                  (api_key sessionParams) 3 net k) as [[[data | err |] k'] t].
      * split; [reflexivity |]. eexists t, _. split; [reflexivity |].
        left. apply prefix_append.
      * split; [reflexivity |].
        exists (t ++ [EvConsoleError err]). eexists. split.
        -- unfold trace_of. cbn [snd]. now rewrite <- app_assoc.
        -- right. apply prefix_append.
      * now contradiction Htotal.
    + destruct (finishAndSend_refused sessionParams s net k)
        as [err [_ Hrun]].
      { intros url' Hurl'. congruence. }
      rewrite Hrun. split; [reflexivity |].
      exists [EvConsoleError err]. eexists. split; [reflexivity |].
      right. apply prefix_append.
  - destruct (finishAndSend_refused sessionParams s net k)
      as [err [_ Hrun]].
    { intros url' Hurl'. congruence. }
    rewrite Hrun. split; [reflexivity |].
    exists [EvConsoleError err]. eexists. split; [reflexivity |].
    right. apply prefix_append.
Qed.

(** The requests, and a bound on the waits, of a call with three attempts. *)
Lemma sendWithRetry_three url payload apiKey net k :
  exists j : nat,
    (j <= 3)%nat
    /\ (posts (trace_of (sendWithRetry url payload apiKey 3 net k))
        = repeat (post_request url payload apiKey) j)
    /\ (1 <= j)%nat
    /\ total_wait (trace_of (sendWithRetry url payload apiKey 3 net k)) <= 7000.
Proof.
  destruct (sendWithRetry_shape url payload apiKey 3 net k)
    as [j [_ [[v [Hrun Hj]] | [res [_ [Hj Hrun]]]]]];
    rewrite Hrun; unfold trace_of; cbn [snd].
  - exists j. rewrite posts_backoff_trace, total_wait_backoff_trace.
    assert (j = 3%nat) as -> by lia. repeat split; lia.
  - exists (S j). rewrite posts_app, posts_backoff_trace. cbn [posts].
    assert (Hw : total_wait
                   (backoff_trace (post_request url payload apiKey) 0 j
                    ++ [EvPost (post_request url payload apiKey)])
                 = total_wait
                     (backoff_trace (post_request url payload apiKey) 0 j)).
    { unfold total_wait. rewrite waits_app. cbn [waits].
      now rewrite app_nil_r. }
    rewrite Hw, total_wait_backoff_trace.
    repeat split; try lia.
    + change [post_request url payload apiKey]
        with (repeat (post_request url payload apiKey) 1).
      rewrite <- repeat_app. f_equal. lia.
    + assert (2 ^ Z.of_nat j <= 2 ^ 2) by (apply Z.pow_le_mono_r; lia). lia.
Qed.

(** X7: [finishAndSend] sends a request if and only if [callback_url] is a
    string that begins with [https://]. *)
Theorem finishAndSend_requests_iff_https sessionParams s net k :
  posts (trace_of (finishAndSend sessionParams s net k)) <> []
  <-> exists rest,
        callback_url sessionParams = Some ("https://" ++ rest)%string.
Proof.
  split.
  - intros Hposts.
    destruct (callback_url sessionParams) as [url |] eqn:Hurl.
    + destruct (startsWith url "https://") eqn:Hscheme.
      * destruct (prefix_inv _ _ Hscheme) as [rest ->]. now exists rest.
      * destruct (finishAndSend_refused sessionParams s net k)
          as [err [_ Hrun]].
        { intros url' Hurl'. congruence. }
        rewrite Hrun in Hposts. now contradiction Hposts.
    + destruct (finishAndSend_refused sessionParams s net k)
        as [err [_ Hrun]].
      { intros url' Hurl'. congruence. }
      rewrite Hrun in Hposts. now contradiction Hposts.
  - intros [rest Hurl].
    rewrite (finishAndSend_https sessionParams s net k _ Hurl
               (prefix_append "https://" rest)).
    destruct (sendWithRetry_three ("https://" ++ rest)
                (build_payload sessionParams s) (api_key sessionParams) net k)
      as [j [_ [Hposts [Hj _]]]].
    pose proof (sendWithRetry_total ("https://" ++ rest)
                  (build_payload sessionParams s) (api_key sessionParams)
                  3 net k) as Htotal.
    destruct (sendWithRetry ("https://" ++ rest)
                (build_payload sessionParams s) (api_key sessionParams)
                3 net k) as [[[data | err |] k'] t];
      unfold trace_of in *; cbn [snd posts] in *;
      try (now contradiction Htotal);
      rewrite posts_app, Hposts;
      (destruct j as [|j]; [lia | discriminate]).
Qed.

(** X8: every request of [finishAndSend] goes to [callback_url] and carries
    the payload built from the state and the session's [api_key]. *)
Theorem finishAndSend_posts_to_callback_url sessionParams s net k r :
  In r (posts (trace_of (finishAndSend sessionParams s net k))) ->
  callback_url sessionParams = Some (req_url r)
  /\ r = post_request (req_url r) (build_payload sessionParams s)
                      (api_key sessionParams).
Proof.
  intros Hin.
  destruct (callback_url sessionParams) as [url |] eqn:Hurl.
  - destruct (startsWith url "https://") eqn:Hscheme.
    + rewrite (finishAndSend_https sessionParams s net k url Hurl Hscheme)
        in Hin.
      destruct (sendWithRetry_three url (build_payload sessionParams s)
                  (api_key sessionParams) net k) as [j [_ [Hposts _]]].
      assert (Hr : In r (repeat (post_request url
                                   (build_payload sessionParams s)
                                   (api_key sessionParams)) j)).
      { rewrite <- Hposts.
        destruct (sendWithRetry url (build_payload sessionParams s)
                    (api_key sessionParams) 3 net k)
          as [[[data | err |] k'] t];
          unfold trace_of in *; cbn [snd posts] in *.
        - rewrite posts_app in Hin. cbn [posts] in Hin.
          now rewrite app_nil_r in Hin.
        - rewrite posts_app in Hin. cbn [posts] in Hin.
          now rewrite app_nil_r in Hin.
        - exact Hin. }
      apply repeat_spec in Hr. subst r. split; reflexivity.
    + destruct (finishAndSend_refused sessionParams s net k)
        as [err [_ Hrun]].
      { intros url' Hurl'. congruence. }
      rewrite Hrun in Hin. destruct Hin.
  - destruct (finishAndSend_refused sessionParams s net k)
      as [err [_ Hrun]].
    { intros url' Hurl'. congruence. }
    rewrite Hrun in Hin. destruct Hin.
Qed.

Lemma finishAndSend_posts_to_callback_url_witness :
  callback_url (example_params "https://cb.example/x")
  = Some (req_url (post_request "https://cb.example/x" example_payload
                                (Some "key123")))
  /\ post_request "https://cb.example/x" example_payload (Some "key123")
     = post_request
         (req_url (post_request "https://cb.example/x" example_payload
                                (Some "key123")))
         (build_payload (example_params "https://cb.example/x")
                        example_snapshot)
         (api_key (example_params "https://cb.example/x")).
Proof.
  refine (finishAndSend_posts_to_callback_url
            (example_params "https://cb.example/x") example_snapshot
            net_down 0%nat
            (post_request "https://cb.example/x" example_payload
                          (Some "key123")) _).
  cbn. left. reflexivity.
Defined.

(** X9: one delivery makes at most three requests and waits at most
    7000 ms in total, whatever the parameters and the network. *)
Theorem finishAndSend_bounds sessionParams s net k :
  (List.length (posts (trace_of (finishAndSend sessionParams s net k))) <= 3)%nat
  /\ total_wait (trace_of (finishAndSend sessionParams s net k)) <= 7000.
Proof.
  destruct (callback_url sessionParams) as [url |] eqn:Hurl.
  - destruct (startsWith url "https://") eqn:Hscheme.
    + rewrite (finishAndSend_https sessionParams s net k url Hurl Hscheme).
      destruct (sendWithRetry_three url (build_payload sessionParams s)
                  (api_key sessionParams) net k) as [j [Hj [Hposts [_ Hw]]]].
      destruct (sendWithRetry url (build_payload sessionParams s)
                  (api_key sessionParams) 3 net k)
        as [[[data | err |] k'] t];
        unfold trace_of, total_wait in *; cbn [snd posts waits] in *;
        rewrite ?posts_app, ?waits_app; cbn [posts waits];
        rewrite ?app_nil_r, ?Hposts, ?repeat_length; split; assumption.
    + destruct (finishAndSend_refused sessionParams s net k)
        as [err [_ Hrun]].
      { intros url' Hurl'. congruence. }
      rewrite Hrun. cbn. split; lia.
  - destruct (finishAndSend_refused sessionParams s net k)
      as [err [_ Hrun]].
    { intros url' Hurl'. congruence. }
    rewrite Hrun. cbn. split; lia.
Qed.

(** X10: when the endpoint accepts the first request, [finishAndSend]
    makes that one request and shows the acknowledgment's message, or "OK"
    when the body has no message or an empty one. *)
Theorem finishAndSend_delivered sessionParams s net k url res :
  callback_url sessionParams = Some url ->
  startsWith url "https://" = true ->
  net k (post_request url (build_payload sessionParams s)
                      (api_key sessionParams)) = Resolved res ->
  finishAndSend sessionParams s net k
  = (Return tt, S k,
     [ EvSetMessage "Envoi des résultats...";
       EvPost (post_request url (build_payload sessionParams s)
                            (api_key sessionParams));
       EvSetMessage ("Résultats envoyés: "
                     ++ or_default (ack_message (res_data res)) "OK") ])
  /\ (falsy (ack_message (res_data res)) = true ->
      or_default (ack_message (res_data res)) "OK" = "OK").
Proof.
  intros Hurl Hscheme Hnet. split.
  - rewrite (finishAndSend_https sessionParams s net k url Hurl Hscheme).
    unfold sendWithRetry, loop_fuel. cbn zeta.
    rewrite (retry_loop_resolved url (build_payload sessionParams s)
               (api_key sessionParams) 3 net _ 0 JsNull k res)
      by (lia || exact Hnet).
    reflexivity.
  - destruct (ack_message (res_data res)) as [[|c m]|]; cbn;
      congruence.
Qed.

Lemma finishAndSend_delivered_witness :
  finishAndSend (example_params "https://cb.example/x") example_snapshot
                (fun _ _ => Resolved (mk_response 200 (mk_ack None))) 0%nat
  = (Return tt, 1%nat,
     [ EvSetMessage "Envoi des résultats...";
       EvPost (post_request "https://cb.example/x" example_payload
                            (Some "key123"));
       EvSetMessage "Résultats envoyés: OK" ]).
Proof.
  refine (proj1
    (finishAndSend_delivered (example_params "https://cb.example/x")
       example_snapshot (fun _ _ => Resolved (mk_response 200 (mk_ack None)))
       0%nat "https://cb.example/x" (mk_response 200 (mk_ack None)) _ _ _)).
  - reflexivity.
  - reflexivity.
  - reflexivity.
Defined.

(** X11: when the endpoint rejects the three requests, [finishAndSend]
    waits 1000, 2000 and 4000 ms, the last wait after the third request,
    and only then logs the third error and shows its message (or, when the
    message is empty, the error converted to a string). *)
Theorem finishAndSend_failed sessionParams s net k url e0 e1 e2 :
  callback_url sessionParams = Some url ->
  startsWith url "https://" = true ->
  net k (post_request url (build_payload sessionParams s)
                      (api_key sessionParams)) = Rejected e0 ->
  net (S k) (post_request url (build_payload sessionParams s)
                          (api_key sessionParams)) = Rejected e1 ->
  net (S (S k)) (post_request url (build_payload sessionParams s)
                              (api_key sessionParams)) = Rejected e2 ->
  finishAndSend sessionParams s net k
  = (Return tt, S (S (S k)),
     [ EvSetMessage "Envoi des résultats...";
       EvPost (post_request url (build_payload sessionParams s)
                            (api_key sessionParams));
       EvWait 1000;
       EvPost (post_request url (build_payload sessionParams s)
                            (api_key sessionParams));
       EvWait 2000;
       EvPost (post_request url (build_payload sessionParams s)
                            (api_key sessionParams));
       EvWait 4000;
       EvConsoleError e2;
       EvSetMessage ("Échec envoi résultats: "
                     ++ or_default (opt_message e2) (to_String e2)) ]).
Proof.
  intros Hurl Hscheme H0 H1 H2.
  rewrite (finishAndSend_https sessionParams s net k url Hurl Hscheme).
  unfold sendWithRetry, loop_fuel. cbn zeta.
  change (S (Z.to_nat 3)) with 4%nat.
  rewrite (retry_loop_rejected url (build_payload sessionParams s)
             (api_key sessionParams) 3 net 3 0 JsNull k e0)
    by (lia || exact H0).
  rewrite (retry_loop_rejected url (build_payload sessionParams s)
             (api_key sessionParams) 3 net 2 (0 + 1) e0 (S k) e1)
    by (lia || exact H1).
  rewrite (retry_loop_rejected url (build_payload sessionParams s)
             (api_key sessionParams) 3 net 1 (0 + 1 + 1) e1 (S (S k)) e2)
    by (lia || exact H2).
  rewrite (retry_loop_exit url (build_payload sessionParams s)
             (api_key sessionParams) 3 net 0 (0 + 1 + 1 + 1) e2
             (S (S (S k)))) by lia.
  reflexivity.
Qed.

Lemma finishAndSend_failed_witness :
  finishAndSend (example_params "https://cb.example/x") example_snapshot
                net_down 0%nat
  = (Return tt, 3%nat,
     [ EvSetMessage "Envoi des résultats...";
       EvPost (post_request "https://cb.example/x" example_payload
                            (Some "key123"));
       EvWait 1000;
       EvPost (post_request "https://cb.example/x" example_payload
                            (Some "key123"));
       EvWait 2000;
       EvPost (post_request "https://cb.example/x" example_payload
                            (Some "key123"));
       EvWait 4000;
       EvConsoleError refused_error;
       EvSetMessage "Échec envoi résultats: Network Error" ]).
Proof.
  refine (finishAndSend_failed (example_params "https://cb.example/x")
            example_snapshot net_down 0%nat "https://cb.example/x"
            refused_error refused_error refused_error _ _ _ _ _);
    reflexivity.
Defined.

(** ** parseParams and the identifiers of the payload *)

Lemma get_app_other (q1 q2 : URLSearchParams) (k v k' : string) :
  k <> k' -> get (q1 ++ (k, v) :: q2) k' = get (q1 ++ q2) k'.
Proof.
  intros Hk. induction q1 as [|[k1 v1] q1 IH]; cbn [app get].
  - destruct (String.eqb_spec k k'); [contradiction | reflexivity].
  - now rewrite IH.
Qed.

Lemma get_app_found (q1 q2 : URLSearchParams) (k : string) :
  get q1 k <> None -> get (q1 ++ q2) k = get q1 k.
Proof.
  induction q1 as [|[k1 v1] q1 IH]; cbn [app get]; intros H.
  - contradiction.
  - destruct (String.eqb k1 k); [reflexivity | now apply IH].
Qed.

(** X12: [parseParams] reads six names only: a pair of the query string
    with any other name, wherever it stands, changes nothing. *)
Theorem parseParams_ignores_other_names (q1 q2 : URLSearchParams)
    (k v : string) :
  ~ In k [ "session_id"; "learner_id"; "resource_id"; "api_key";
           "callback_url"; "mode" ] ->
  parseParams (q1 ++ (k, v) :: q2) = parseParams (q1 ++ q2).
Proof.
  intros Hk. unfold parseParams.
  rewrite !get_app_other; [reflexivity | | | | | |];
    intros ->; apply Hk; cbn; tauto.
Qed.

Lemma parseParams_ignores_other_names_witness :
  parseParams ([("session_id", "s-1")] ++ ("utm_source", "mail")
                 :: [("mode", "exam")])
  = parseParams ([("session_id", "s-1")] ++ [("mode", "exam")]).
Proof.
  refine (parseParams_ignores_other_names [("session_id", "s-1")]
            [("mode", "exam")] "utm_source" "mail" _).
  cbn. intros [H | [H | [H | [H | [H | [H | []]]]]]]; discriminate H.
Defined.

(** X13: when a name is written several times in the query string, the
    first value counts: a field whose name has a value in the first part of
    the query string is not changed by what follows. *)
Theorem parseParams_first_value_counts (q1 q2 : URLSearchParams) :
  (get q1 "session_id" <> None ->
   session_id (parseParams (q1 ++ q2)) = session_id (parseParams q1))
  /\ (get q1 "learner_id" <> None ->
      learner_id (parseParams (q1 ++ q2)) = learner_id (parseParams q1))
  /\ (get q1 "resource_id" <> None ->
      resource_id (parseParams (q1 ++ q2)) = resource_id (parseParams q1))
  /\ (get q1 "api_key" <> None ->
      api_key (parseParams (q1 ++ q2)) = api_key (parseParams q1))
  /\ (get q1 "callback_url" <> None ->
      callback_url (parseParams (q1 ++ q2)) = callback_url (parseParams q1))
  /\ (get q1 "mode" <> None ->
      mode (parseParams (q1 ++ q2)) = mode (parseParams q1)).
Proof.
  unfold parseParams.
  cbn [session_id learner_id resource_id api_key callback_url mode].
  repeat split; intros H; now rewrite get_app_found.
Qed.

Lemma parseParams_first_value_counts_witness :
  api_key (parseParams ([("api_key", "key123")] ++ [("api_key", "other")]))
  = api_key (parseParams [("api_key", "key123")]).
Proof.
  refine (proj1 (proj2 (proj2 (proj2
    (parseParams_first_value_counts [("api_key", "key123")]
                                    [("api_key", "other")])))) _).
  discriminate.
Defined.

(** X14: the [mode] that [parseParams] gives is never empty, so the second
    default of line 120 never applies: the payload carries the session's
    [mode] as it is. *)
Theorem payload_mode_is_session_mode (q : URLSearchParams) (s : run_snapshot) :
  mode (parseParams q) <> ""
  /\ p_mode (build_payload (parseParams q) s) = mode (parseParams q).
Proof.
  cbn [parseParams build_payload mode p_mode].
  destruct (get q "mode") as [[|c m]|]; cbn; split;
    solve [discriminate | reflexivity].
Qed.

(** ** The interval: a run of ticks *)

Lemma Qle_bool_inject_Z (a b : Z) :
  Qle_bool (inject_Z a) (inject_Z b) = (a <=? b).
Proof. unfold Qle_bool, inject_Z. cbn. now rewrite !Z.mul_1_r. Qed.

Lemma run_ticks_stopped closure_targetTime closure_temperature inputs s :
  running s = false ->
  run_ticks closure_targetTime closure_temperature inputs s = s.
Proof. intros H. destruct inputs; cbn [run_ticks]; [| rewrite H]; reflexivity. Qed.

(** Editing a field changes neither [running], nor the progress, nor the
    event log. *)
Lemma apply_edits_frame (i : tick_input) (s : sim_state) :
  running (apply_edits i s) = running s
  /\ progress (apply_edits i s) = progress s
  /\ sim_events (apply_edits i s) = sim_events s.
Proof.
  unfold apply_edits.
  destruct (ti_edit_targetTime i), (ti_edit_temperature i); repeat split.
Qed.

(** The ticks of a run whose captured target is the integer [T]: the run
    goes on until the progress reaches [T] (or, when [T] is already
    reached, for one tick), whatever is typed in the fields meanwhile. *)
Lemma run_ticks_progress closure_temperature (T : Z) inputs :
  forall s,
    running s = true ->
    (Z.max (progress s + 1) T - progress s <= Z.of_nat (List.length inputs) ->
     running (run_ticks (inject_Z T) closure_temperature inputs s) = false
     /\ progress (run_ticks (inject_Z T) closure_temperature inputs s)
        = Z.max (progress s + 1) T)
    /\ (Z.of_nat (List.length inputs) < Z.max (progress s + 1) T - progress s ->
        running (run_ticks (inject_Z T) closure_temperature inputs s) = true
        /\ progress (run_ticks (inject_Z T) closure_temperature inputs s)
           = progress s + Z.of_nat (List.length inputs)).
Proof.
  induction inputs as [|i inputs IH]; intros s Hrun.
  - cbn [run_ticks List.length]. split; intros H; [lia |].
    split; [exact Hrun | lia].
  - cbn [run_ticks]. rewrite Hrun.
    destruct (apply_edits_frame i s) as [Her [Hep _]].
    set (s' := tick (inject_Z T) closure_temperature (ti_drift i) (ti_event i)
                    (ti_now i) (apply_edits i s)).
    assert (Hp : progress s' = progress s + 1).
    { unfold s'. cbn [tick progress]. now rewrite Hep. }
    assert (Hr : running s' = negb (T <=? progress s + 1)).
    { unfold s'. cbn [tick running].
      rewrite Qle_bool_inject_Z, Her, Hep, Hrun.
      now destruct (T <=? progress s + 1). }
    destruct (Z.leb_spec T (progress s + 1)) as [Hle | Hgt]; cbn [negb] in Hr.
    + rewrite (run_ticks_stopped _ _ _ _ Hr). rewrite Hp, Hr.
      cbn [List.length]. split; intros H; [| lia].
      split; [reflexivity | lia].
    + destruct (IH s' Hr) as [IHstop IHgo].
      rewrite Hp in IHstop, IHgo. cbn [List.length].
      split; intros H.
      * destruct IHstop as [H1 H2]; [lia |]. split; [exact H1 | lia].
      * destruct IHgo as [H1 H2]; [lia |]. split; [exact H1 | lia].
Qed.

(** X15: a run started at progress 0 with an integer target [T] (the
    target the callback captured when the run began) goes on, one second of
    progress per tick, until the progress is [T] (1 when [T <= 1]), and
    stops there: with fewer ticks it is still running.  What is typed in
    the fields during the run does not change this. *)
Theorem run_ticks_stops_at_target closure_temperature (T : Z) inputs s :
  running s = true ->
  progress s = 0 ->
  (Z.max 1 T <= Z.of_nat (List.length inputs) ->
   running (run_ticks (inject_Z T) closure_temperature inputs s) = false
   /\ progress (run_ticks (inject_Z T) closure_temperature inputs s)
      = Z.max 1 T)
  /\ (Z.of_nat (List.length inputs) < Z.max 1 T ->
      running (run_ticks (inject_Z T) closure_temperature inputs s) = true
      /\ progress (run_ticks (inject_Z T) closure_temperature inputs s)
         = Z.of_nat (List.length inputs)).
Proof.
  intros Hrun Hp.
  destruct (run_ticks_progress closure_temperature T inputs s Hrun)
    as [Hstop Hgo].
  rewrite Hp in Hstop, Hgo. cbn [Z.add] in Hstop, Hgo.
  split; intros H.
  - apply Hstop. lia.
  - destruct Hgo as [H1 H2]; [lia |]. split; [exact H1 | lia].
Qed.

Lemma run_ticks_stops_at_target_witness :
  running (run_ticks (inject_Z 2) 200
             [ mk_tick_input (1 # 2) (1 # 2) "t1" None None;
               mk_tick_input (1 # 4) (1 # 20) "t2" (Some 5%Q) None;
               mk_tick_input (3 # 4) (1 # 2) "t3" None None ]
             (mk_sim_state true 0 (inject_Z 2) 200 [])) = false
  /\ progress (run_ticks (inject_Z 2) 200
                 [ mk_tick_input (1 # 2) (1 # 2) "t1" None None;
                   mk_tick_input (1 # 4) (1 # 20) "t2" (Some 5%Q) None;
                   mk_tick_input (3 # 4) (1 # 2) "t3" None None ]
                 (mk_sim_state true 0 (inject_Z 2) 200 [])) = Z.max 1 2.
Proof.
  refine (proj1
    (run_ticks_stops_at_target 200 2
       [ mk_tick_input (1 # 2) (1 # 2) "t1" None None;
         mk_tick_input (1 # 4) (1 # 20) "t2" (Some 5%Q) None;
         mk_tick_input (3 # 4) (1 # 2) "t3" None None ]
       (mk_sim_state true 0 (inject_Z 2) 200 []) _ _) _).
  - reflexivity.
  - reflexivity.
  - cbn. lia.
Defined.

(** What the interval does to the event log. *)
Lemma run_ticks_appends closure_targetTime closure_temperature inputs s :
  exists added,
    sim_events (run_ticks closure_targetTime closure_temperature inputs s)
    = sim_events s ++ added
    /\ (List.length added <= List.length inputs)%nat
    /\ Forall (fun e => ev_code e = "ACTION.PRESS"
                        /\ ev_meta_temperature e
                           = Some (Math_round closure_temperature))
              added.
Proof.
  revert s. induction inputs as [|i inputs IH]; intros s.
  - exists []. cbn. now rewrite app_nil_r.
  - cbn [run_ticks]. destruct (running s).
    + destruct (IH (tick closure_targetTime closure_temperature (ti_drift i)
                         (ti_event i) (ti_now i) (apply_edits i s)))
        as [added [Hev [Hlen Hall]]].
      rewrite Hev. cbn [tick sim_events].
      destruct (apply_edits_frame i s) as [_ [_ ->]].
      destruct (negb (Qle_bool (1 # 10) (ti_event i))).
      * exists (mk_event (ti_now i) "ACTION.PRESS" "Ajustement"
                         (Some (Math_round closure_temperature)) :: added).
        rewrite <- app_assoc. cbn [app List.length].
        repeat split; [lia |]. constructor; [now split | exact Hall].
      * exists added. cbn [List.length]. repeat split; [lia | exact Hall].
    + exists []. cbn. rewrite app_nil_r. repeat split; [lia | constructor].
Qed.

(** X16: the interval only appends to the event log, at most one event per
    tick, and every event it appends is an ACTION.PRESS whose recorded
    temperature is the one the callback captured when the run began, not
    the current one. *)
Theorem run_ticks_events closure_targetTime closure_temperature inputs s :
  exists added,
    sim_events (run_ticks closure_targetTime closure_temperature inputs s)
    = sim_events s ++ added
    /\ (List.length added <= List.length inputs)%nat
    /\ Forall (fun e => ev_code e = "ACTION.PRESS"
                        /\ ev_meta_temperature e
                           = Some (Math_round closure_temperature))
              added.
Proof. apply run_ticks_appends. Qed.

(** ** The score *)

Local Open Scope Q_scope.

Lemma timeScore_nonneg targetTime progress : 0 <= timeScore targetTime progress.
Proof.
  unfold timeScore. destruct (Qeq_bool targetTime 0).
  - apply Qle_refl.
  - apply Q.le_max_l.
Qed.

Lemma tempStability_nonneg temperature : 0 <= tempStability temperature.
Proof. unfold tempStability. apply Q.le_max_l. Qed.

Lemma weighted_sum_nonneg targetTime progress temperature :
  0 <= timeScore targetTime progress * (7 # 10)
       + tempStability temperature * (3 # 10).
Proof.
  apply (Qle_trans _ (0 + 0)); [discriminate |].
  apply Qplus_le_compat.
  - apply Qmult_le_0_compat; [apply timeScore_nonneg | discriminate].
  - apply Qmult_le_0_compat; [apply tempStability_nonneg | discriminate].
Qed.

Lemma Math_round_le (lo : Z) (x : Q) :
  inject_Z lo <= x -> (lo <= Math_round x)%Z.
Proof.
  intros H. unfold Math_round.
  rewrite <- (Qfloor_Z lo). apply Qfloor_resp_le.
  apply (Qle_trans _ (x + 0)).
  - now rewrite Qplus_0_r.
  - apply Qplus_le_compat; [apply Qle_refl | discriminate].
Qed.

(** X17: the score is an integer between 0 and 100, whatever the target
    (not zero), the progress and the temperature. *)
Theorem score_bounds targetTime progress temperature :
  ~ targetTime == 0 ->
  (0 <= score_of targetTime progress temperature <= 100)%Z.
Proof.
  intros _. unfold score_of. split.
  - apply (Math_round_le 0). apply Q.min_glb; [discriminate |].
    apply weighted_sum_nonneg.
  - unfold Math_round.
    change 100%Z with (Qfloor (100 + (1 # 2))).
    apply Qfloor_resp_le. apply Qplus_le_compat; [| apply Qle_refl].
    apply Q.le_min_l.
Qed.

Lemma score_bounds_witness :
  (0 <= score_of 300 150 (225 # 1) <= 100)%Z.
Proof.
  refine (score_bounds 300 150 (225 # 1) _).
  discriminate.
Defined.

(** When the progress is the target, the score is at least 70. *)
Lemma score_at_target (T : Z) temperature :
  (T <> 0)%Z -> (70 <= score_of (inject_Z T) T temperature)%Z.
Proof.
  intros HT. unfold score_of. apply (Math_round_le 70).
  apply Q.min_glb; [discriminate |].
  assert (Htime : 100 <= timeScore (inject_Z T) T).
  { unfold timeScore.
    assert (Hnz : Qeq_bool (inject_Z T) 0 = false).
    { unfold Qeq_bool, inject_Z. cbn. apply Z.eqb_neq. lia. }
    rewrite Hnz.
    apply (Qle_trans _ (100 - Qabs (inject_Z T - inject_Z T) / inject_Z T * 100));
      [| apply Q.le_max_r].
    assert (Hz : Qabs (inject_Z T - inject_Z T) == 0).
    { rewrite (Qabs_wd (inject_Z T - inject_Z T) 0) by ring. reflexivity. }
    rewrite Hz. unfold Qdiv. rewrite Qmult_0_l, Qmult_0_l. discriminate. }
  apply (Qle_trans _ (100 * (7 # 10) + 0)); [discriminate |].
  apply Qplus_le_compat.
  - apply Qmult_le_compat_r; [exact Htime | discriminate].
  - apply Qmult_le_0_compat; [apply tempStability_nonneg | discriminate].
Qed.

Local Close Scope Q_scope.

Lemma run_ticks_targetTime closure_targetTime closure_temperature inputs :
  forall s,
    Forall (fun i => ti_edit_targetTime i = None) inputs ->
    targetTime (run_ticks closure_targetTime closure_temperature inputs s)
    = targetTime s.
Proof.
  induction inputs as [|i inputs IH]; intros s Hno; [reflexivity |].
  inversion Hno as [| ? ? Hi Hrest]; subst.
  cbn [run_ticks]. destruct (running s); [| reflexivity].
  rewrite (IH _ Hrest). cbn [tick targetTime].
  unfold apply_edits. rewrite Hi.
  now destruct (ti_edit_temperature i).
Qed.

(** X18: a run that is left to end by itself, at its integer target
    [T >= 1], the target field not being edited during the run, has a score
    of at least 70 whatever the temperature did: its payload never carries
    the grade C.  (The hypothesis on the field is needed: the callback stops
    the run at the target it captured, the score is computed with the
    target the field holds at the end.) *)
Theorem completed_run_grade env (a : app_state) (T : Z)
    (inputs : list tick_input) :
  1 <= T ->
  running (app_sim a) = true ->
  progress (app_sim a) = 0 ->
  targetTime (app_sim a) = inject_Z T ->
  Forall (fun i => ti_edit_targetTime i = None) inputs ->
  T <= Z.of_nat (List.length inputs) ->
  70 <= score (summary (build_payload (app_sessionParams a)
                          (snapshot_of env (after_ticks inputs a))))
  /\ (grade (summary (build_payload (app_sessionParams a)
                        (snapshot_of env (after_ticks inputs a)))) = "A"
      \/ grade (summary (build_payload (app_sessionParams a)
                           (snapshot_of env (after_ticks inputs a)))) = "B").
Proof.
  intros HT Hrun Hp Ht Hno Hlen.
  cbn [build_payload summary score grade snapshot_of snap_score after_ticks
       app_sim].
  rewrite (run_ticks_targetTime _ _ _ _ Hno), Ht.
  destruct (run_ticks_progress (temperature (app_sim a)) T inputs (app_sim a)
              Hrun) as [[_ Hstop] _]; [lia |].
  rewrite Hstop, Hp.
  replace (Z.max (0 + 1) T) with T by lia.
  pose proof (score_at_target T
                (temperature (run_ticks (inject_Z T) (temperature (app_sim a))
                                        inputs (app_sim a))) ltac:(lia))
    as Hscore.
  split; [exact Hscore |].
  unfold grade_of.
  destruct (Z.geb_spec
              (score_of (inject_Z T) T
                 (temperature (run_ticks (inject_Z T)
                                 (temperature (app_sim a)) inputs
                                 (app_sim a)))) 85);
    [now left |].
  destruct (Z.geb_spec
              (score_of (inject_Z T) T
                 (temperature (run_ticks (inject_Z T)
                                 (temperature (app_sim a)) inputs
                                 (app_sim a)))) 70);
    [now right | lia].
Qed.

Lemma completed_run_grade_witness :
  70 <= score (summary (build_payload
                 (app_sessionParams
                    (effect_started "t0"
                       (start (initial_state
                                 [ ("session_id", "s-1"); ("api_key", "key123");
                                   ("callback_url", "https://cb.example/x") ]))))
                 (snapshot_of
                    (mk_browser_env "t0" "t300" "data:," "log" "Mozilla/5.0")
                    (after_ticks
                       (repeat (mk_tick_input (1 # 2) (1 # 2) "t" None None)
                               300)
                       (effect_started "t0"
                          (start (initial_state
                                    [ ("session_id", "s-1");
                                      ("api_key", "key123");
                                      ("callback_url",
                                       "https://cb.example/x") ])))))))
  /\ (grade (summary (build_payload
                 (app_sessionParams
                    (effect_started "t0"
                       (start (initial_state
                                 [ ("session_id", "s-1"); ("api_key", "key123");
                                   ("callback_url", "https://cb.example/x") ]))))
                 (snapshot_of
                    (mk_browser_env "t0" "t300" "data:," "log" "Mozilla/5.0")
                    (after_ticks
                       (repeat (mk_tick_input (1 # 2) (1 # 2) "t" None None)
                               300)
                       (effect_started "t0"
                          (start (initial_state
                                    [ ("session_id", "s-1");
                                      ("api_key", "key123");
                                      ("callback_url",
                                       "https://cb.example/x") ]))))))) = "A"
      \/ grade (summary (build_payload
                 (app_sessionParams
                    (effect_started "t0"
                       (start (initial_state
                                 [ ("session_id", "s-1"); ("api_key", "key123");
                                   ("callback_url", "https://cb.example/x") ]))))
                 (snapshot_of
                    (mk_browser_env "t0" "t300" "data:," "log" "Mozilla/5.0")
                    (after_ticks
                       (repeat (mk_tick_input (1 # 2) (1 # 2) "t" None None)
                               300)
                       (effect_started "t0"
                          (start (initial_state
                                    [ ("session_id", "s-1");
                                      ("api_key", "key123");
                                      ("callback_url",
                                       "https://cb.example/x") ]))))))) = "B").
Proof.
  refine (completed_run_grade
            (mk_browser_env "t0" "t300" "data:," "log" "Mozilla/5.0")
            (effect_started "t0"
               (start (initial_state
                         [ ("session_id", "s-1"); ("api_key", "key123");
                           ("callback_url", "https://cb.example/x") ])))
            300 (repeat (mk_tick_input (1 # 2) (1 # 2) "t" None None) 300)
            _ _ _ _ _ _).
  - lia.
  - reflexivity.
  - reflexivity.
  - reflexivity.
  - apply Forall_forall. intros i Hi. apply repeat_spec in Hi. now subst i.
  - rewrite repeat_length. lia.
Defined.

(** When the target field is edited during the run, the run still ends at
    the captured target, and the score is computed with the edited one: a
    run started with target 3 and edited to 1 ends by itself at progress 3
    with the score 30 and the grade C. *)
Example edited_target_run :
  progress (app_sim
    (after_ticks
       [ mk_tick_input (1 # 2) (1 # 2) "t1" None None;
         mk_tick_input (1 # 2) (1 # 2) "t2" (Some 1%Q) None;
         mk_tick_input (1 # 2) (1 # 2) "t3" None None ]
       (effect_started "t0"
          (start (setup_target 3
                    [ ("session_id", "s-1"); ("api_key", "key123");
                      ("callback_url", "https://cb.example/x") ]))))) = 3
  /\ summary (build_payload
       (parseParams [ ("session_id", "s-1"); ("api_key", "key123");
                      ("callback_url", "https://cb.example/x") ])
       (snapshot_of
          (mk_browser_env "t0" "t3" "data:," "log" "Mozilla/5.0")
          (after_ticks
             [ mk_tick_input (1 # 2) (1 # 2) "t1" None None;
               mk_tick_input (1 # 2) (1 # 2) "t2" (Some 1%Q) None;
               mk_tick_input (1 # 2) (1 # 2) "t3" None None ]
             (effect_started "t0"
                (start (setup_target 3
                          [ ("session_id", "s-1"); ("api_key", "key123");
                            ("callback_url", "https://cb.example/x") ]))))))
     = mk_summary 30 "completed" "C".
Proof. split; reflexivity. Qed.

(** ** Starting and stopping a run *)

Lemma falsy_false (v : jsstr) :
  falsy v = false <-> exists s, v = Some s /\ s <> "".
Proof.
  split.
  - destruct v as [[|c s]|]; intros H; try discriminate H.
    exists (String c s). split; [reflexivity | discriminate].
  - intros [s [-> Hs]]. destruct s; [contradiction | reflexivity].
Qed.

Lemma start_accepted (a : app_state) :
  falsy (session_id (app_sessionParams a)) = false ->
  falsy (api_key (app_sessionParams a)) = false ->
  falsy (callback_url (app_sessionParams a)) = false ->
  start a
  = {| app_sessionParams := app_sessionParams a;
       app_message := "Simulation démarrée";
       app_sim := {| running := true;
                     progress := 0;
                     targetTime := targetTime (app_sim a);
                     temperature := temperature (app_sim a);
                     sim_events := [] |};
       app_metrics := [];
       app_competencies := [] |}.
Proof. intros H1 H2 H3. unfold start. cbn zeta. now rewrite H1, H2, H3. Qed.

Lemma run_ticks_progress_grows closure_targetTime closure_temperature inputs :
  forall s,
    progress s
    <= progress (run_ticks closure_targetTime closure_temperature inputs s)
    /\ (running s = true -> inputs <> [] ->
        progress s + 1
        <= progress (run_ticks closure_targetTime closure_temperature
                               inputs s)).
Proof.
  induction inputs as [|i inputs IH]; intros s.
  - cbn [run_ticks]. split; [lia | intros _ H; now contradiction H].
  - cbn [run_ticks]. destruct (running s) eqn:Hrun.
    + destruct (IH (tick closure_targetTime closure_temperature (ti_drift i)
                         (ti_event i) (ti_now i) (apply_edits i s)))
        as [Hle _].
      cbn [tick progress] in Hle.
      destruct (apply_edits_frame i s) as [_ [Hep _]]. rewrite Hep in Hle.
      split; [lia | intros _ _; lia].
    + split; [lia | intros H; discriminate H].
Qed.

(** X19: on a fresh page, Start begins a run if and only if the query
    string gives non-empty values for session_id, api_key and callback_url;
    otherwise it changes nothing but the status message. *)
Theorem start_requires_params (q : URLSearchParams) :
  (running (app_sim (start (initial_state q))) = true
   <-> exists sid key url,
         get q "session_id" = Some sid /\ sid <> ""
         /\ get q "api_key" = Some key /\ key <> ""
         /\ get q "callback_url" = Some url /\ url <> "")
  /\ (running (app_sim (start (initial_state q))) = false ->
      app_sim (start (initial_state q)) = app_sim (initial_state q)
      /\ app_message (start (initial_state q)) = missing_params_message).
Proof.
  unfold start. cbn zeta.
  cbn [initial_state app_sessionParams parseParams session_id api_key
       callback_url].
  destruct (falsy (get q "session_id")) eqn:H1;
    destruct (falsy (get q "api_key")) eqn:H2;
    destruct (falsy (get q "callback_url")) eqn:H3;
    cbn [orb app_sim running app_message];
    (split; [split | ]);
    try (intros H; discriminate H);
    try (intros _; split; reflexivity);
    try (intros [sid [key [url [Hs [Hs' [Hk [Hk' [Hu Hu']]]]]]]];
         assert (falsy (get q "session_id") = false)
           by (apply falsy_false; eauto);
         assert (falsy (get q "api_key") = false)
           by (apply falsy_false; eauto);
         assert (falsy (get q "callback_url") = false)
           by (apply falsy_false; eauto);
         congruence).
  intros _.
  apply falsy_false in H1, H2, H3.
  destruct H1 as [sid [Hs Hs']], H2 as [key [Hk Hk']], H3 as [url [Hu Hu']].
  exists sid, key, url. tauto.
Qed.

(** X20: Start does not look at the scheme of callback_url.  With
    non-empty parameters and a callback_url that does not begin with
    [https://], the run starts, and whether it ends by itself or is stopped,
    no request is ever sent for it. *)
Theorem start_does_not_check_scheme (a : app_state) url now now' inputs env
    net k :
  falsy (session_id (app_sessionParams a)) = false ->
  falsy (api_key (app_sessionParams a)) = false ->
  callback_url (app_sessionParams a) = Some url ->
  url <> "" ->
  startsWith url "https://" = false ->
  running (app_sim (start a)) = true
  /\ posts (trace_of (finish_effect env
                        (after_ticks inputs (effect_started now (start a)))
                        net k)) = []
  /\ posts (trace_of (finish_effect env
                        (stop now'
                           (after_ticks inputs
                              (effect_started now (start a))))
                        net k)) = [].
Proof.
  intros Hsid Hkey Hurl Hne Hscheme.
  assert (Hcb : falsy (callback_url (app_sessionParams a)) = false).
  { apply falsy_false. now exists url. }
  rewrite (start_accepted a Hsid Hkey Hcb).
  split; [reflexivity |].
  assert (Hnone : forall s, posts (trace_of (finishAndSend
                                               (app_sessionParams a) s net k))
                            = []).
  { intros s.
    destruct (finishAndSend_refused (app_sessionParams a) s net k)
      as [err [_ Hrun]].
    { intros url' Hurl'. congruence. }
    now rewrite Hrun. }
  unfold finish_effect.
  cbn [stop after_ticks effect_started app_sessionParams app_sim running
       progress negb andb].
  split.
  - match goal with
    | |- context [if ?c then _ else _] => destruct c
    end; [apply Hnone | reflexivity].
  - match goal with
    | |- context [if ?c then _ else _] => destruct c
    end; [apply Hnone | reflexivity].
Qed.

Lemma start_does_not_check_scheme_witness :
  running (app_sim (start (initial_state
                             [ ("session_id", "s-1"); ("api_key", "key123");
                               ("callback_url", "http://insecure.example") ])))
  = true.
Proof.
  refine (proj1
    (start_does_not_check_scheme
       (initial_state [ ("session_id", "s-1"); ("api_key", "key123");
                        ("callback_url", "http://insecure.example") ])
       "http://insecure.example" "t0" "t9"
       [mk_tick_input (1 # 2) (1 # 2) "t1" None None]
       (mk_browser_env "t0" "t9" "data:," "log" "Mozilla/5.0")
       net_up 0%nat _ _ _ _ _));
    solve [reflexivity | discriminate].
Defined.

(** X21: a run that is stopped before its first tick sends nothing: the
    effect that delivers the results does nothing while the progress is 0.
    Once a tick has run, stopping delivers the results of the stopped
    state. *)
Theorem stop_delivers_only_after_a_tick (a : app_state) now now' env net k :
  falsy (session_id (app_sessionParams a)) = false ->
  falsy (api_key (app_sessionParams a)) = false ->
  falsy (callback_url (app_sessionParams a)) = false ->
  finish_effect env (stop now' (effect_started now (start a))) net k
  = (Return tt, k, [])
  /\ forall i inputs,
       finish_effect env
         (stop now' (after_ticks (i :: inputs) (effect_started now (start a))))
         net k
       = finishAndSend (app_sessionParams a)
           (snapshot_of env
              (stop now'
                 (after_ticks (i :: inputs) (effect_started now (start a)))))
           net k.
Proof.
  intros Hsid Hkey Hcb.
  rewrite (start_accepted a Hsid Hkey Hcb).
  split; [reflexivity |].
  intros i inputs. unfold finish_effect at 1.
  cbn [stop after_ticks effect_started app_sessionParams app_sim running
       progress temperature negb andb].
  match goal with
  | |- context [progress (run_ticks ?tg ?ct ?l ?s)] =>
      destruct (run_ticks_progress_grows tg ct l s) as [_ Hpos]
  end.
  specialize (Hpos eq_refl ltac:(discriminate)). cbn [progress] in Hpos.
  match goal with
  | |- context [?p >? 0] => destruct (Z.gtb_spec p 0) as [_ | Hle]
  end; [reflexivity | lia].
Qed.

Lemma stop_delivers_only_after_a_tick_witness :
  finish_effect (mk_browser_env "t0" "t9" "data:," "log" "Mozilla/5.0")
    (stop "t9"
       (effect_started "t0"
          (start (initial_state
                    [ ("session_id", "s-1"); ("api_key", "key123");
                      ("callback_url", "https://cb.example/x") ]))))
    net_up 0%nat
  = (Return tt, 0%nat, []).
Proof.
  refine (proj1
    (stop_delivers_only_after_a_tick
       (initial_state [ ("session_id", "s-1"); ("api_key", "key123");
                        ("callback_url", "https://cb.example/x") ])
       "t0" "t9" (mk_browser_env "t0" "t9" "data:," "log" "Mozilla/5.0")
       net_up 0%nat _ _ _));
    reflexivity.
Defined.

(** X22: the event log of a run begins with the ACTION.START event and
    goes on with ACTION.PRESS events only, at most one per tick; a manual
    stop adds one ACTION.STOP event at the end, and a run that ends by
    itself has none.  Whatever the log held before Start is gone. *)
Theorem run_event_log (a : app_state) now now' inputs :
  falsy (session_id (app_sessionParams a)) = false ->
  falsy (api_key (app_sessionParams a)) = false ->
  falsy (callback_url (app_sessionParams a)) = false ->
  exists presses,
    (List.length presses <= List.length inputs)%nat
    /\ Forall (fun e => ev_code e = "ACTION.PRESS") presses
    /\ sim_events (app_sim (after_ticks inputs
                              (effect_started now (start a))))
       = mk_event now "ACTION.START" "Démarrage de la torréfaction" None
           :: presses
    /\ sim_events (app_sim (stop now'
                              (after_ticks inputs
                                 (effect_started now (start a)))))
       = mk_event now "ACTION.START" "Démarrage de la torréfaction" None
           :: presses ++ [mk_event now' "ACTION.STOP" "Arrêt manuel" None].
Proof.
  intros Hsid Hkey Hcb.
  rewrite (start_accepted a Hsid Hkey Hcb).
  cbn [stop after_ticks effect_started app_sessionParams app_sim running
       progress temperature sim_events app].
  match goal with
  | |- context [run_ticks ?tg ?ct inputs ?s] =>
      destruct (run_ticks_appends tg ct inputs s)
        as [added [Hev [Hlen Hall]]]
  end.
  exists added. rewrite Hev. cbn [sim_events app].
  split; [exact Hlen |]. split; [| split; reflexivity].
  eapply Forall_impl; [| exact Hall]. intros e [He _]. exact He.
Qed.

Lemma run_event_log_witness :
  exists presses,
    (List.length presses <= 1)%nat
    /\ Forall (fun e => ev_code e = "ACTION.PRESS") presses
    /\ sim_events
         (app_sim (after_ticks [mk_tick_input (1 # 2) (1 # 20) "t1" None (Some 180%Q)]
                     (effect_started "t0"
                        (start (initial_state
                                  [ ("session_id", "s-1");
                                    ("api_key", "key123");
                                    ("callback_url",
                                     "https://cb.example/x") ])))))
       = mk_event "t0" "ACTION.START" "Démarrage de la torréfaction" None
           :: presses
    /\ sim_events
         (app_sim (stop "t9"
                     (after_ticks [mk_tick_input (1 # 2) (1 # 20) "t1" None (Some 180%Q)]
                        (effect_started "t0"
                           (start (initial_state
                                     [ ("session_id", "s-1");
                                       ("api_key", "key123");
                                       ("callback_url",
                                        "https://cb.example/x") ]))))))
       = mk_event "t0" "ACTION.START" "Démarrage de la torréfaction" None
           :: presses ++ [mk_event "t9" "ACTION.STOP" "Arrêt manuel" None].
Proof.
  refine (run_event_log
            (initial_state [ ("session_id", "s-1"); ("api_key", "key123");
                             ("callback_url", "https://cb.example/x") ])
            "t0" "t9" [mk_tick_input (1 # 2) (1 # 20) "t1" None (Some 180%Q)] _ _ _);
    reflexivity.
Defined.
